(** * Optimal histogram binning (Shimazaki-Shinomoto): a shallow embedding

    The development embeds [optimalbinning/binning.py] (class [Binning]) and
    proves properties of its two algorithms, [bin_frequency] and
    [optimal_binning], and of the accessors.

    Modelling choices.
    - Python floats are idealised as exact rationals ([Q]); the two IEEE
      infinities used as sentinels by the source ([numpy.PINF],
      [numpy.NINF]) are the extra constructors of [float].
    - [numpy] is a release in which [numpy.PINF] and [numpy.NINF] exist;
      no release of it has a function [numpy.len].
    - Counts held in float arrays ([FREQUENCY], [_n_x]) are integers ([Z]).
    - A pandas data frame is a record of its three columns.
    - The object [self] is a record threaded through every method; a method
      returns the final object together with either its return value or the
      exception it raised, so the state left behind by a raise is visible.

    Scope of the rational idealisation. Three effects of binary64
    arithmetic are outside the model, and no property below is meant to
    cover them:
    - a quotient rounded up to the next float before [math.ceil] (lines
      166-167) can make a bin count one larger than the exact one;
    - a criterion (line 203) can overflow to plus infinity, so that the
      comparison of line 213 never succeeds on it; the scan over such
      criteria is [scan_lowest], on [float];
    - a data range that overflows to infinity makes line 150 raise
      [OverflowError], which [exn] does not list. *)

From Stdlib Require Import String.
From Stdlib Require Import ZArith QArith Qround Qpower.
From Stdlib Require Import List Bool Lia Lqa Sorted.
Import ListNotations.

Local Open Scope Z_scope.

(** ** Exceptions and outcomes *)

Inductive exn : Type :=
| ValueError (msg : string)
| AttributeError (msg : string)
| IndexError
| TypeError
| ZeroDivisionError.

(** The two [ValueError]s raised by [optimal_binning] itself. *)
Definition EmptyInputError : exn :=
  ValueError "(optimal_binning): The input data array is empty".
Definition DegenerateRangeError : exn :=
  ValueError "(optimal_binning): The minimum value equals the maximum value.  Binning cannot be done.".
(** [math.log10] of a negative number. *)
Definition MathDomainError : exn := ValueError "math domain error".
(** [numpy.zeros] of a negative size. *)
Definition NegativeDimensionError : exn :=
  ValueError "negative dimensions are not allowed".
(** The module [numpy] exports no function [len]. *)
Definition NumpyLenError : exn :=
  AttributeError "module 'numpy' has no attribute 'len'".

Inductive outcome (A : Type) : Type :=
| Return (a : A)
| Raise (e : exn).
Arguments Return {A} a.
Arguments Raise {A} e.

Definition bind {A B : Type} (m : outcome A) (k : A -> outcome B) : outcome B :=
  match m with
  | Return a => k a
  | Raise e => Raise e
  end.

(** ** Floats with the two infinities *)

Inductive float : Type :=
| NINF
| Fin (q : Q)
| PINF.

Definition Qltb (x y : Q) : bool := negb (Qle_bool y x).

(** [a < b] on floats. *)
Definition float_ltb (a b : float) : bool :=
  match a, b with
  | NINF, NINF => false
  | NINF, _ => true
  | Fin _, NINF => false
  | Fin x, Fin y => Qltb x y
  | Fin _, PINF => true
  | PINF, _ => false
  end.

(** ** Data frames returned by [bin_frequency] *)

Record DataFrame : Type := mkDataFrame {
  LOWER_CLOSE : list float;
  UPPER_OPEN : list float;
  FREQUENCY : list Z
}.

Definition n_rows (d : DataFrame) : nat := length (LOWER_CLOSE d).

(** The three columns have one length. *)
Definition well_formed (d : DataFrame) : Prop :=
  length (UPPER_OPEN d) = n_rows d /\ length (FREQUENCY d) = n_rows d.

Definition Zsum (l : list Z) : Z := fold_right Z.add 0 l.

(** ** [Binning.bin_frequency] *)

(** The inner [for i in range(n_bin-1)] loop: the first [i] with
    [u < bin_lower_boundary[i+1]]; [uppers] is [bin_lower_boundary[1:]]
    from position [i] on. [None] is [qFound == False]. *)
Fixpoint find_bin (u : Q) (uppers : list float) (i : nat) : option nat :=
  match uppers with
  | [] => None
  | b :: rest => if float_ltb (Fin u) b then Some i else find_bin u rest (S i)
  end.

(** [bin_frequency[i] = bin_frequency[i] + 1.0]. The index is within range
    at both uses in [bin_frequency]. *)
Fixpoint incr_at (i : nat) (freq : list Z) : list Z :=
  match freq, i with
  | [], _ => []
  | f :: fs, O => (f + 1) :: fs
  | f :: fs, S j => f :: incr_at j fs
  end.

(** One iteration of [for u in data]. *)
Definition count_value (bin_lower_boundary : list float) (freq : list Z) (u : Q)
  : list Z :=
  match find_bin u (tl bin_lower_boundary) 0 with
  | Some i => incr_at i freq
  | None => incr_at (length bin_lower_boundary - 1) freq
  end.

Definition bin_frequency (data : list Q) (bin_lower_boundary : list float)
  : outcome DataFrame :=
  let n_bin := length bin_lower_boundary in
  (* bin_upper_boundary[-1] = numpy.PINF on an array of size n_bin *)
  if (n_bin =? 0)%nat then Raise IndexError
  else if (2 <=? n_bin)%nat then
    (* bin_upper_boundary[0:-1] = bin_lower_boundary[1:] *)
    let bin_upper_boundary := tl bin_lower_boundary ++ [PINF] in
    let bin_frequency :=
      fold_left (count_value bin_lower_boundary) data (repeat 0 n_bin) in
    Return (mkDataFrame bin_lower_boundary bin_upper_boundary bin_frequency)
  else
    (* n_bin == 1: bin_frequency[0] = numpy.len(data) *)
    Raise NumpyLenError.

(** ** The [Binning] object *)

Record Binning : Type := mkBinning {
  bin_width_candidate : list Q;
  list_criterion : list Q;
  list_n_bin : list Z;
  list_bin_boundary : list DataFrame;
  max_n_bin : option Z;
  min_n_bin : option Z;
  optimal_criterion : float;
  optimal_position : option nat
}.

(** The class attributes: the state of a freshly constructed object. *)
Definition new_Binning : Binning :=
  {| bin_width_candidate := [];
     list_criterion := [];
     list_n_bin := [];
     list_bin_boundary := [];
     max_n_bin := None;
     min_n_bin := None;
     optimal_criterion := PINF;
     optimal_position := None |}.

Definition set_min_n_bin (self : Binning) (v : Z) : Binning :=
  {| bin_width_candidate := bin_width_candidate self;
     list_criterion := list_criterion self;
     list_n_bin := list_n_bin self;
     list_bin_boundary := list_bin_boundary self;
     max_n_bin := max_n_bin self;
     min_n_bin := Some v;
     optimal_criterion := optimal_criterion self;
     optimal_position := optimal_position self |}.

Definition set_max_n_bin (self : Binning) (v : Z) : Binning :=
  {| bin_width_candidate := bin_width_candidate self;
     list_criterion := list_criterion self;
     list_n_bin := list_n_bin self;
     list_bin_boundary := list_bin_boundary self;
     max_n_bin := Some v;
     min_n_bin := min_n_bin self;
     optimal_criterion := optimal_criterion self;
     optimal_position := optimal_position self |}.

(** Lines 153-157: the four lists are replaced by fresh empty lists. *)
Definition reset_lists (self : Binning) : Binning :=
  {| bin_width_candidate := [];
     list_criterion := [];
     list_n_bin := [];
     list_bin_boundary := [];
     max_n_bin := max_n_bin self;
     min_n_bin := min_n_bin self;
     optimal_criterion := optimal_criterion self;
     optimal_position := optimal_position self |}.

(** Lines 189-192: the four [append]s. *)
Definition append_candidate (self : Binning) (bin_width criterion : Q)
    (n_bin : Z) (bin_details : DataFrame) : Binning :=
  {| bin_width_candidate := bin_width_candidate self ++ [bin_width];
     list_criterion := list_criterion self ++ [criterion];
     list_n_bin := list_n_bin self ++ [n_bin];
     list_bin_boundary := list_bin_boundary self ++ [bin_details];
     max_n_bin := max_n_bin self;
     min_n_bin := min_n_bin self;
     optimal_criterion := optimal_criterion self;
     optimal_position := optimal_position self |}.

(** Lines 218-219. *)
Definition set_optimum (self : Binning) (c : float) (p : nat) : Binning :=
  {| bin_width_candidate := bin_width_candidate self;
     list_criterion := list_criterion self;
     list_n_bin := list_n_bin self;
     list_bin_boundary := list_bin_boundary self;
     max_n_bin := max_n_bin self;
     min_n_bin := min_n_bin self;
     optimal_criterion := c;
     optimal_position := Some p |}.

(** ** Numeric helpers of [optimal_binning] *)

Local Open Scope Q_scope.

(** [numpy.round]: round half to even. *)
Definition numpy_round (x : Q) : Z :=
  let f := Qfloor x in
  let d := x - inject_Z f in
  if Qltb d (1 # 2) then f
  else if Qltb (1 # 2) d then (f + 1)%Z
  else if Z.even f then f else (f + 1)%Z.

(** [math.floor(math.log10(x))] for [x > 0]: the largest [k] with
    [10^k <= x]. The search starts below the answer, at
    [-(log2 (den x) + 1)], and climbs at most
    [log2 (num x) + log2 (den x) + 2] times. *)
Fixpoint log10_climb (fuel : nat) (k : Z) (x : Q) : Z :=
  match fuel with
  | O => k
  | S fuel' =>
      if Qle_bool (10 ^ (k + 1)) x then log10_climb fuel' (k + 1)%Z x else k
  end.

Definition floor_log10 (x : Q) : Z :=
  let lo := (- (Z.log2 (Zpos (Qden x)) + 1))%Z in
  let fuel := Z.to_nat (Z.log2 (Qnum x) + Z.log2 (Zpos (Qden x)) + 2) in
  log10_climb fuel lo x.

(** [math.ceil(math.log10(x))] for [x > 0]. *)
Definition ceil_log10 (x : Q) : Z :=
  let k := floor_log10 x in
  if Qeq_bool (10 ^ k) x then k else (k + 1)%Z.

(** [numpy.arange(0, n, 1)]. *)
Definition arange (n : Z) : list Z := map Z.of_nat (seq 0 (Z.to_nat n)).

Definition Qsum (l : list Q) : Q := fold_right Qplus 0 l.

(** ** The summary-statistics pass (lines 112-123) *)

Record Stats : Type := mkStats {
  _n_x : Z;
  _min_x : float;
  _max_x : float;
  _mean_x : Q
}.

Definition stats_init : Stats :=
  {| _n_x := 0; _min_x := PINF; _max_x := NINF; _mean_x := 0 |}.

Definition stats_step (s : Stats) (u : Q) : Stats :=
  {| _n_x := (_n_x s + 1)%Z;
     _mean_x := _mean_x s + u;
     _max_x := if float_ltb (_max_x s) (Fin u) then Fin u else _max_x s;
     _min_x := if float_ltb (Fin u) (_min_x s) then Fin u else _min_x s |}.

Definition summary (data : list Q) : Stats := fold_left stats_step data stats_init.

(** ** The candidate sweep (lines 159-205) *)

(** Lines 196-200. *)
Definition next_bin_width (sequence : Z) (bin_width : Q) : Q :=
  if (sequence =? 1)%Z then (125 # 100) * bin_width else 2 * bin_width.

(** Lines 202-205. *)
Definition next_sequence (sequence : Z) : Z :=
  let sequence := (sequence + 1)%Z in
  if (sequence =? 4)%Z then 0%Z else sequence.

(** Lines 173-179: [numpy.zeros(n_bin)] and the assignments into it. *)
Definition make_boundary (n_bin : Z) (low_x bin_width : Q) : outcome (list float) :=
  if (n_bin <? 0)%Z then Raise NegativeDimensionError
  else if (n_bin =? 0)%Z then Raise IndexError
  else if (n_bin >? 2)%Z then
    Return (NINF :: map (fun k => Fin (low_x + bin_width * inject_Z k))
                        (arange (n_bin - 1)))
  else if (n_bin =? 2)%Z then Return [NINF; Fin low_x]
  else Return [NINF].

(** Lines 184-186. *)
Definition shimazaki_criterion (n_x n_bin : Z) (bin_width : Q) (freq : list Z) : Q :=
  let mean_bin_freq := inject_Z n_x / inject_Z n_bin in
  let var_bin_freq :=
    Qsum (map (fun f => (inject_Z f - mean_bin_freq) ^ 2) freq) / inject_Z n_bin in
  (2 * mean_bin_freq - var_bin_freq) / bin_width / bin_width.

Record LoopState : Type := mkLoop {
  self_of : Binning;
  sequence : Z;
  bin_width : Q;
  n_candidates : Z
}.

Section Sweep.

(** What the loop reads and never writes. *)
Variable data : list Q.
Variables (n_x : Z) (mean_x min_x max_x : Q).
Variables (lo_n_bin hi_n_bin : Z).   (* self.min_n_bin, self.max_n_bin *)
Variable max_bin_width : Q.

(** Lines 164-192: the bin count of a width, and the candidate recorded
    for it when the count is within the limits. *)
Definition middle_of (bw : Q) : Q := bw * inject_Z (numpy_round (mean_x / bw)).
Definition n_bin_left_of (bw : Q) : Z := Qceiling ((middle_of bw - min_x) / bw).
Definition n_bin_right_of (bw : Q) : Z := Qceiling ((max_x - middle_of bw) / bw).
Definition n_bin_of (bw : Q) : Z := (n_bin_left_of bw + n_bin_right_of bw)%Z.

Definition record_candidate (st : LoopState) : outcome LoopState :=
  let bw := bin_width st in
  let middle_x := middle_of bw in
  let n_bin_left := n_bin_left_of bw in
  let n_bin := n_bin_of bw in
  if ((lo_n_bin <=? n_bin) && (n_bin <=? hi_n_bin))%Z then
    let low_x := middle_x - inject_Z (n_bin_left - 1) * bw in
    bind (make_boundary n_bin low_x bw) (fun bin_lower_boundary =>
    bind (bin_frequency data bin_lower_boundary) (fun bin_details =>
    let criterion := shimazaki_criterion n_x n_bin bw (FREQUENCY bin_details) in
    Return {| self_of := append_candidate (self_of st) bw criterion n_bin bin_details;
              sequence := sequence st;
              bin_width := bw;
              n_candidates := (n_candidates st + 1)%Z |}))
  else Return st.

Definition advance (st : LoopState) : LoopState :=
  {| self_of := self_of st;
     sequence := next_sequence (sequence st);
     bin_width := next_bin_width (sequence st) (bin_width st);
     n_candidates := n_candidates st |}.

(** One pass through the body of the [while]. *)
Definition sweep_body (st : LoopState) : outcome LoopState :=
  bind (record_candidate st) (fun st' => Return (advance st')).

(** The [while (bin_width <= max_bin_width)] loop, unrolled [fuel] times.
    The result is the state at exit and the exception pending there, if
    any; a raise leaves the object as it was at the start of the pass. *)
Fixpoint sweep (fuel : nat) (st : LoopState) : LoopState * option exn :=
  match fuel with
  | O => (st, None)
  | S fuel' =>
      if Qle_bool (bin_width st) max_bin_width then
        match sweep_body st with
        | Raise e => (st, Some e)
        | Return st' => sweep fuel' st'
        end
      else (st, None)
  end.

End Sweep.

(** Lines 207-215: the scan for the lowest criterion; [i] is the position
    of the head of [l]. *)
Fixpoint select_lowest (l : list Q) (i : nat)
    (lowest_criterion : float) (lowest_position : option nat)
  : float * option nat :=
  match l with
  | [] => (lowest_criterion, lowest_position)
  | v :: rest =>
      if float_ltb (Fin v) lowest_criterion
      then select_lowest rest (S i) (Fin v) (Some i)
      else select_lowest rest (S i) lowest_criterion lowest_position
  end.

(** Passes of the loop that the widths [10^a .. 10^b] allow: four per
    decade, one for the last width, one to spare. *)
Definition sweep_fuel (a b : Z) : nat := Z.to_nat (4 * (b - a) + 2).

(** ** [Binning.optimal_binning] *)

(** Lines 132-140: the limits as given, or their defaults. *)
Definition default_min_n_bin (min_n_bin_arg : option Z) : Z :=
  match min_n_bin_arg with None => 2%Z | Some v => v end.
Definition default_max_n_bin (max_n_bin_arg : option Z) (n_x : Z) : Z :=
  match max_n_bin_arg with None => (n_x / 2)%Z | Some v => v end.

(** Lines 132-145: the limits are stored in the object, then "swapped"
    when they are in the wrong order. *)
Definition resolve_limits (self : Binning) (min_n_bin_arg max_n_bin_arg : option Z)
    (n_x : Z) : Binning :=
  let lo := default_min_n_bin min_n_bin_arg in
  let hi := default_max_n_bin max_n_bin_arg n_x in
  let self := set_min_n_bin self lo in
  let self := set_max_n_bin self hi in
  if (hi <? lo)%Z then
    let u := hi in                       (* u = self.max_n_bin *)
    let self := set_max_n_bin self lo in (* self.max_n_bin = self.min_n_bin *)
    set_max_n_bin self u                 (* self.max_n_bin = u *)
  else self.

(** Lines 150-151. *)
Definition min_bin_width_of (range_x : Q) (hi : Z) : Q :=
  10 ^ floor_log10 (range_x / inject_Z hi).
Definition max_bin_width_of (range_x : Q) (lo : Z) : Q :=
  10 ^ ceil_log10 (range_x / inject_Z lo).

(** [math.log10(range_x / n)] for [range_x > 0]: division by zero, or the
    logarithm of a negative number. *)
Definition log10_quotient_check (range_x : Q) (n : Z) : option exn :=
  if (n =? 0)%Z then Some ZeroDivisionError
  else if Qltb (range_x / inject_Z n) 0 then Some MathDomainError
  else None.

Definition sweep_start (self : Binning) (min_bin_width : Q) : LoopState :=
  {| self_of := self; sequence := 0%Z;
     bin_width := min_bin_width; n_candidates := 0%Z |}.

(** Lines 150-205: the search range, the reset of the lists and the loop,
    started at [min_bin_width] with the counter at 0. *)
Definition sweep_of_range (self : Binning) (data : list Q) (n_x : Z)
    (mean_x min_x max_x : Q) (lo hi : Z) : LoopState * option exn :=
  let range_x := max_x - min_x in
  let min_bin_width := min_bin_width_of range_x hi in
  let max_bin_width := max_bin_width_of range_x lo in
  let self := reset_lists self in
  sweep data n_x mean_x min_x max_x lo hi max_bin_width
        (sweep_fuel (floor_log10 (range_x / inject_Z hi))
                    (ceil_log10 (range_x / inject_Z lo)))
        (sweep_start self min_bin_width).

(** Lines 207-219. *)
Definition select_optimum (self : Binning) : Binning :=
  let (lowest_criterion, lowest_position) :=
    select_lowest (list_criterion self) 0 PINF None in
  match lowest_position with
  | Some p => set_optimum self lowest_criterion p
  | None => self
  end.

(** Lines 147-221, once the extremes of the sample are known. *)
Definition binning_of_range (self : Binning) (data : list Q) (n_x : Z)
    (mean_x min_x max_x : Q) : Binning * outcome Z :=
  let range_x := max_x - min_x in
  if Qltb 0 range_x then
    match max_n_bin self, min_n_bin self with
    | Some hi, Some lo =>
        match log10_quotient_check range_x hi with
        | Some e => (self, Raise e)
        | None =>
        match log10_quotient_check range_x lo with
        | Some e => (self, Raise e)
        | None =>
        let (st, pending) :=
          sweep_of_range self data n_x mean_x min_x max_x lo hi in
        match pending with
        | Some e => (self_of st, Raise e)
        | None => (select_optimum (self_of st), Return (n_candidates st))
        end
        end
        end
    | _, _ => (self, Raise TypeError)
    end
  else (self, Raise DegenerateRangeError).

Definition optimal_binning (self : Binning) (data : list Q)
    (min_n_bin_arg max_n_bin_arg : option Z) : Binning * outcome Z :=
  let s := summary data in
  if (0 <? _n_x s)%Z then
    let mean_x := _mean_x s / inject_Z (_n_x s) in
    let self := resolve_limits self min_n_bin_arg max_n_bin_arg (_n_x s) in
    match _max_x s, _min_x s with
    | Fin max_x, Fin min_x =>
        binning_of_range self data (_n_x s) mean_x min_x max_x
    | _, _ =>
        (* an infinite extreme: the range is not a positive number *)
        (self, Raise DegenerateRangeError)
    end
  else (self, Raise EmptyInputError).

(** ** Accessors *)

(** [l[p]] on a Python list. *)
Definition getitem {A : Type} (l : list A) (p : nat) : outcome A :=
  match nth_error l p with
  | Some x => Return x
  | None => Raise IndexError
  end.

Definition get_optimal_boundary (self : Binning) : outcome (option DataFrame) :=
  match optimal_position self with
  | Some p => bind (getitem (list_bin_boundary self) p) (fun d => Return (Some d))
  | None => Return None
  end.

Definition get_optimal_nbin (self : Binning) : outcome Z :=
  match optimal_position self with
  | Some p => getitem (list_n_bin self) p
  | None => Return 0%Z
  end.

Definition get_optimal_width (self : Binning) : outcome (option Q) :=
  match optimal_position self with
  | Some p => bind (getitem (bin_width_candidate self) p) (fun w => Return (Some w))
  | None => Return None
  end.

(** ** Concrete runs *)

Definition sample15 : list Q :=
  [1; 2; 2; 3; 3; 3; 4; 4; 4; 4; 5; 5; 5; 5; 5].

Definition run1 := optimal_binning new_Binning sample15 None None.
Definition run2 := optimal_binning (fst run1) sample15 (Some 10%Z) (Some 2%Z).

(** ** The progression of widths, on its own *)

(** The counter and the width after [k] passes of the loop. *)
Fixpoint width_after (k : nat) (sequence : Z) (bin_width : Q) : Z * Q :=
  match k with
  | O => (sequence, bin_width)
  | S k' =>
      width_after k' (next_sequence sequence) (next_bin_width sequence bin_width)
  end.

(** The multiples of a power of ten that the comment at line 196 names. *)
Definition nice (r : nat) : Q :=
  match r with
  | 0%nat => 1
  | 1%nat => 2
  | 2%nat => 5 # 2
  | _ => 5
  end.

(** The widths of one cycle of four passes that starts at [w]. *)
Definition cycle_widths (w : Q) : list Q :=
  map (fun k => snd (width_after k 0%Z w)) (seq 0 5).

(** ** What the loop maintains *)

(** Every recorded bin count is the number of rows of the frame recorded
    with it, lies within the limits, and the frame counts every value of
    the sample once. *)
Definition frames_ok (data : list Q) (lo hi : Z) (self : Binning) : Prop :=
  Forall2 (fun n d => n = Z.of_nat (n_rows d)
                      /\ well_formed d
                      /\ Zsum (FREQUENCY d) = Z.of_nat (length data)
                      /\ (lo <= n <= hi)%Z /\ (2 <= n)%Z)
          (list_n_bin self) (list_bin_boundary self).

(** The recorded widths increase, lie between the two ends of the search
    range, and are below the width about to be tried. *)
Definition widths_ok (min_bin_width max_bin_width : Q) (st : LoopState) : Prop :=
  StronglySorted Qlt (bin_width_candidate (self_of st))
  /\ Forall (fun w => min_bin_width <= w <= max_bin_width /\ w < bin_width st)
            (bin_width_candidate (self_of st))
  /\ min_bin_width <= bin_width st
  /\ 0 < bin_width st.

(** The four lists grow together, and [n_candidates] counts them. *)
Definition lengths_ok (st : LoopState) : Prop :=
  length (bin_width_candidate (self_of st)) = length (list_criterion (self_of st))
  /\ length (list_n_bin (self_of st)) = length (list_criterion (self_of st))
  /\ length (list_bin_boundary (self_of st)) = length (list_criterion (self_of st))
  /\ n_candidates st = Z.of_nat (length (list_criterion (self_of st))).

(** The loop writes none of the four scalar attributes. *)
Definition scalars_kept (self0 : Binning) (st : LoopState) : Prop :=
  min_n_bin (self_of st) = min_n_bin self0
  /\ max_n_bin (self_of st) = max_n_bin self0
  /\ optimal_criterion (self_of st) = optimal_criterion self0
  /\ optimal_position (self_of st) = optimal_position self0.

(** The bin counts and the frames recorded in an object agree, position
    by position. *)
Definition rows_agree (self : Binning) : Prop :=
  Forall2 (fun nb d => nb = Z.of_nat (n_rows d) /\ well_formed d)
          (list_n_bin self) (list_bin_boundary self).

(** ** What the selection computes *)

(** [v], at position [p] of [l], is the smallest element of [l], and every
    element before it is strictly larger: the first occurrence of the
    minimum. *)
Definition is_first_minimum (l : list Q) (p : nat) (v : Q) : Prop :=
  nth_error l p = Some v
  /\ forall j w, nth_error l j = Some w -> v <= w /\ ((j < p)%nat -> v < w).

(** The state of the scan once the criteria [seen] have been read. *)
Definition scanned (seen : list Q) (c : float) (p : option nat) : Prop :=
  (seen = [] /\ c = PINF /\ p = None)
  \/ (exists i v, p = Some i /\ c = Fin v /\ is_first_minimum seen i v).

(** ** The search range, from the sample and the limits given *)

Definition sample_range (data : list Q) : Q :=
  match _max_x (summary data), _min_x (summary data) with
  | Fin max_x, Fin min_x => max_x - min_x
  | _, _ => 0
  end.

Definition search_min_width (data : list Q) (max_n_bin_arg : option Z) : Q :=
  min_bin_width_of (sample_range data)
                   (default_max_n_bin max_n_bin_arg (_n_x (summary data))).

Definition search_max_width (data : list Q) (min_n_bin_arg : option Z) : Q :=
  max_bin_width_of (sample_range data) (default_min_n_bin min_n_bin_arg).

(** ** Predicates used in the statements *)

(** What the pass has established after reading the values [seen]. *)
Definition summarises (seen : list Q) (s : Stats) : Prop :=
  _n_x s = Z.of_nat (length seen)
  /\ _mean_x s == Qsum seen
  /\ match seen with
     | [] => _max_x s = NINF /\ _min_x s = PINF
     | _ :: _ =>
         exists mx mn, _max_x s = Fin mx /\ _min_x s = Fin mn
                       /\ In mx seen /\ In mn seen
                       /\ Forall (fun u => mn <= u <= mx) seen
     end.

(** An exception other than [DegenerateRangeError] is raised only on a
    positive range, and is one of six. *)
Definition raised_in_search (e : exn) : Prop :=
  e = TypeError \/ e = ZeroDivisionError \/ e = MathDomainError
  \/ e = NumpyLenError \/ e = IndexError \/ e = NegativeDimensionError.

(** The multipliers 1, 2, 4, 5, 10, to compare a cycle against. *)
Definition claimed_cycle : list Q := [1; 2; 4; 5; 10].

(** ** The bins of a frame *)

(** The bin a value is counted in (lines 70-77): the first position whose
    upper limit exceeds it, or the last one. *)
Definition bin_of (bin_lower_boundary : list float) (u : Q) : nat :=
  match find_bin u (tl bin_lower_boundary) 0 with
  | Some i => i
  | None => (length bin_lower_boundary - 1)%nat
  end.

(** [u] lies in row [i] of [d]: below the upper limit of the row and, but
    for the first row, not below its lower limit. *)
Definition in_row (d : DataFrame) (i : nat) (u : Q) : bool :=
  ((i =? 0)%nat || negb (float_ltb (Fin u) (nth i (LOWER_CLOSE d) NINF)))
  && float_ltb (Fin u) (nth i (UPPER_OPEN d) PINF).

(** How many values of the sample satisfy [f]. *)
Definition count_if (f : Q -> bool) (data : list Q) : Z :=
  Z.of_nat (length (filter f data)).

(** No boundary is below an earlier one. *)
Definition nondecreasing (l : list float) : Prop :=
  StronglySorted (fun a b => float_ltb b a = false) l.

(** ** The rows recorded by a run *)

(** The extremes and the mean of a non-empty sample, as [optimal_binning]
    computes them. *)
Definition sample_max (data : list Q) : Q :=
  match _max_x (summary data) with Fin q => q | _ => 0 end.
Definition sample_min (data : list Q) : Q :=
  match _min_x (summary data) with Fin q => q | _ => 0 end.
Definition sample_mean (data : list Q) : Q :=
  _mean_x (summary data) / inject_Z (_n_x (summary data)).

(** Line 171. *)
Definition low_x_of (mean_x min_x bw : Q) : Q :=
  middle_of mean_x bw - inject_Z (n_bin_left_of mean_x min_x bw - 1) * bw.

(** The bin count [nb], the frame [d] and the criterion [c] are those that
    lines 164-186 compute for the width [w]. *)
Definition candidate_of (data : list Q) (n_x : Z) (mean_x min_x max_x : Q)
    (w c : Q) (nb : Z) (d : DataFrame) : Prop :=
  0 < w
  /\ nb = n_bin_of mean_x min_x max_x w
  /\ (exists bnd, make_boundary nb (low_x_of mean_x min_x w) w = Return bnd
                  /\ bin_frequency data bnd = Return d)
  /\ c = shimazaki_criterion n_x nb w (FREQUENCY d).

(** A property of the rows of four lists of one length. *)
Inductive Forall4 {A B C D : Type} (P : A -> B -> C -> D -> Prop)
  : list A -> list B -> list C -> list D -> Prop :=
| Forall4_nil : Forall4 P [] [] [] []
| Forall4_cons (a : A) (b : B) (c : C) (d : D) la lb lc ld :
    P a b c d -> Forall4 P la lb lc ld ->
    Forall4 P (a :: la) (b :: lb) (c :: lc) (d :: ld).

(** The rows of an object are the candidates of their widths. *)
Definition rows_computed (data : list Q) (n_x : Z) (mean_x min_x max_x : Q)
    (self : Binning) : Prop :=
  Forall4 (candidate_of data n_x mean_x min_x max_x)
          (bin_width_candidate self) (list_criterion self)
          (list_n_bin self) (list_bin_boundary self).

(** ** The widths a run tries *)

(** The exponents of the two ends of the search range (lines 150-151). *)
Definition search_min_exp (data : list Q) (max_n_bin_arg : option Z) : Z :=
  floor_log10 (sample_range data
               / inject_Z (default_max_n_bin max_n_bin_arg (_n_x (summary data)))).
Definition search_max_exp (data : list Q) (min_n_bin_arg : option Z) : Z :=
  ceil_log10 (sample_range data / inject_Z (default_min_n_bin min_n_bin_arg)).

(** The number of widths from [10^a] up to [10^b] in the progression. *)
Definition widths_in_range (a b : Z) : nat := Z.to_nat (4 * (b - a) + 1).

(** The loop has made some number of passes, all on widths that passed the
    guard, and has recorded some of those widths, at most one per pass. *)
Definition widths_tried (min_bin_width max_bin_width : Q) (st : LoopState) : Prop :=
  exists k : nat,
    sequence st = fst (width_after k 0%Z min_bin_width)
    /\ bin_width st = snd (width_after k 0%Z min_bin_width)
    /\ (forall j, (j < k)%nat ->
                  snd (width_after j 0%Z min_bin_width) <= max_bin_width)
    /\ (length (bin_width_candidate (self_of st)) <= k)%nat
    /\ Forall (fun w => exists j, (j < k)%nat
                                  /\ w = snd (width_after j 0%Z min_bin_width))
              (bin_width_candidate (self_of st)).

(** ** Two objects through the same run *)

(** Two loop states that differ at most in the optimum they carry. *)
Definition same_progress (st1 st2 : LoopState) : Prop :=
  sequence st1 = sequence st2
  /\ bin_width st1 = bin_width st2
  /\ n_candidates st1 = n_candidates st2
  /\ bin_width_candidate (self_of st1) = bin_width_candidate (self_of st2)
  /\ list_criterion (self_of st1) = list_criterion (self_of st2)
  /\ list_n_bin (self_of st1) = list_n_bin (self_of st2)
  /\ list_bin_boundary (self_of st1) = list_bin_boundary (self_of st2)
  /\ min_n_bin (self_of st1) = min_n_bin (self_of st2)
  /\ max_n_bin (self_of st1) = max_n_bin (self_of st2).

(** Two objects with the same lists and limits. *)
Definition same_results (s1 s2 : Binning) : Prop :=
  bin_width_candidate s1 = bin_width_candidate s2
  /\ list_criterion s1 = list_criterion s2
  /\ list_n_bin s1 = list_n_bin s2
  /\ list_bin_boundary s1 = list_bin_boundary s2
  /\ min_n_bin s1 = min_n_bin s2
  /\ max_n_bin s1 = max_n_bin s2.

(** ** [Binning.get_binning_criterion] *)

(** A row of the frame with the columns BIN_WIDTH, CRITERION, N_BIN. *)
Record CriterionRow : Type := mkCriterionRow {
  BIN_WIDTH : Q;
  CRITERION : Q;
  N_BIN : Z
}.

(** [pandas.DataFrame] of three columns of one length, row by row. *)
Fixpoint zip_rows (ws cs : list Q) (ns : list Z) : list CriterionRow :=
  match ws, cs, ns with
  | w :: ws', c :: cs', n :: ns' => mkCriterionRow w c n :: zip_rows ws' cs' ns'
  | _, _, _ => []
  end.

(** [sort_values(by = 'BIN_WIDTH')], ascending. pandas does not fix the
    order of rows of equal width; this sort keeps them in their order. *)
Fixpoint insert_row (r : CriterionRow) (l : list CriterionRow) : list CriterionRow :=
  match l with
  | [] => [r]
  | x :: l' =>
      if Qle_bool (BIN_WIDTH r) (BIN_WIDTH x) then r :: l else x :: insert_row r l'
  end.

Definition sort_values (l : list CriterionRow) : list CriterionRow :=
  fold_right insert_row [] l.

(** The [ValueError] of [pandas.DataFrame] on columns of different
    lengths. *)
Definition ColumnLengthError : exn :=
  ValueError "All arrays must be of the same length".

Definition get_binning_criterion (self : Binning) : outcome (list CriterionRow) :=
  if ((length (bin_width_candidate self) =? length (list_criterion self))%nat
      && (length (list_criterion self) =? length (list_n_bin self))%nat)%bool
  then Return (sort_values (zip_rows (bin_width_candidate self)
                                     (list_criterion self) (list_n_bin self)))
  else Raise ColumnLengthError.

(** ** The selection over floats *)

(** Lines 207-215 once more, on criteria that may be infinite: in the
    source the elements of [list_criterion] are floats, and a criterion
    that overflows is [numpy.PINF]. [select_lowest] is this scan on finite
    criteria. *)
Fixpoint scan_lowest (l : list float) (i : nat)
    (lowest_criterion : float) (lowest_position : option nat)
  : float * option nat :=
  match l with
  | [] => (lowest_criterion, lowest_position)
  | v :: rest =>
      if float_ltb v lowest_criterion
      then scan_lowest rest (S i) v (Some i)
      else scan_lowest rest (S i) lowest_criterion lowest_position
  end.



(** * Properties *)

(** ** [bin_frequency] *)

Section BinFrequency.

Lemma incr_at_length (i : nat) (freq : list Z) :
  length (incr_at i freq) = length freq.
Proof.
  revert i; induction freq as [|f fs IH]; intros [|j]; simpl; auto.
Qed.

Lemma incr_at_sum (i : nat) (freq : list Z) :
  (i < length freq)%nat -> Zsum (incr_at i freq) = (Zsum freq + 1)%Z.
Proof.
  revert i; induction freq as [|f fs IH]; intros [|j] Hi; simpl in *; try lia.
  rewrite IH by lia. lia.
Qed.

Lemma find_bin_range (u : Q) (uppers : list float) (i j : nat) :
  find_bin u uppers i = Some j -> (i <= j < i + length uppers)%nat.
Proof.
  revert i; induction uppers as [|b rest IH]; intros i H;
    cbn [find_bin length] in *.
  - discriminate.
  - destruct (float_ltb (Fin u) b).
    + inversion H; subst. lia.
    + apply IH in H. lia.
Qed.

Variable bin_lower_boundary : list float.
Hypothesis nonempty : (1 <= length bin_lower_boundary)%nat.

Lemma count_value_length (freq : list Z) (u : Q) :
  length (count_value bin_lower_boundary freq u) = length freq.
Proof.
  unfold count_value.
  destruct (find_bin u (tl bin_lower_boundary) 0); apply incr_at_length.
Qed.

Lemma count_value_sum (freq : list Z) (u : Q) :
  length freq = length bin_lower_boundary ->
  Zsum (count_value bin_lower_boundary freq u) = (Zsum freq + 1)%Z.
Proof.
  intros Hlen. unfold count_value.
  destruct (find_bin u (tl bin_lower_boundary) 0) as [j|] eqn:E.
  - apply find_bin_range in E.
    apply incr_at_sum.
    destruct bin_lower_boundary; simpl in *; lia.
  - apply incr_at_sum. lia.
Qed.

Lemma count_all_length (data : list Q) (freq : list Z) :
  length (fold_left (count_value bin_lower_boundary) data freq) = length freq.
Proof.
  revert freq; induction data as [|u data IH]; intros freq; simpl; auto.
  rewrite IH. apply count_value_length.
Qed.

Lemma count_all_sum (data : list Q) (freq : list Z) :
  length freq = length bin_lower_boundary ->
  Zsum (fold_left (count_value bin_lower_boundary) data freq)
  = (Zsum freq + Z.of_nat (length data))%Z.
Proof.
  revert freq; induction data as [|u data IH]; intros freq Hlen.
  - simpl. lia.
  - cbn [fold_left length]. rewrite IH.
    + rewrite count_value_sum by assumption. lia.
    + rewrite count_value_length. assumption.
Qed.

End BinFrequency.

Lemma Zsum_repeat_0 (n : nat) : Zsum (repeat 0%Z n) = 0%Z.
Proof. induction n; simpl; auto. Qed.

(** With two boundaries or more, [bin_frequency] returns a frame over the
    given boundaries whose frequencies add up to the sample size. *)
Lemma bin_frequency_sum (data : list Q) (bin_lower_boundary : list float) :
  (2 <= length bin_lower_boundary)%nat ->
  exists d, bin_frequency data bin_lower_boundary = Return d
            /\ LOWER_CLOSE d = bin_lower_boundary
            /\ well_formed d
            /\ Zsum (FREQUENCY d) = Z.of_nat (length data).
Proof.
  intros Hn. unfold bin_frequency.
  destruct (Nat.eqb_spec (length bin_lower_boundary) 0) as [E|_]; [lia|].
  destruct (Nat.leb_spec 2 (length bin_lower_boundary)) as [_|E]; [|lia].
  eexists; split; [reflexivity|]. unfold well_formed, n_rows; cbn.
  repeat split.
  - rewrite length_app. cbn.
    destruct bin_lower_boundary; simpl in *; lia.
  - rewrite count_all_length. apply repeat_length.
  - rewrite count_all_sum.
    + rewrite Zsum_repeat_0. lia.
    + lia.
    + apply repeat_length.
Qed.

Lemma bin_frequency_Return_inv (data : list Q) (bnd : list float) (d : DataFrame) :
  bin_frequency data bnd = Return d ->
  (2 <= length bnd)%nat /\ LOWER_CLOSE d = bnd /\ well_formed d
  /\ Zsum (FREQUENCY d) = Z.of_nat (length data).
Proof.
  intros H.
  assert (Hn : (2 <= length bnd)%nat).
  { unfold bin_frequency in H.
    destruct (Nat.eqb_spec (length bnd) 0); [discriminate|].
    destruct (Nat.leb_spec 2 (length bnd)); [assumption|discriminate]. }
  split; [assumption|].
  destruct (bin_frequency_sum data bnd Hn) as (d' & E & ?).
  rewrite E in H. inversion H; subst. assumption.
Qed.

(** ** Comparisons *)

Lemma Qle_bool_spec (x y : Q) : reflect (x <= y) (Qle_bool x y).
Proof. apply iff_reflect. symmetry. apply Qle_bool_iff. Qed.

Lemma Qltb_spec (x y : Q) : reflect (x < y) (Qltb x y).
Proof.
  unfold Qltb. destruct (Qle_bool_spec y x) as [H|H]; constructor.
  - apply Qle_not_lt. assumption.
  - apply Qnot_le_lt. assumption.
Qed.

Lemma float_ltb_Fin (x y : Q) : float_ltb (Fin x) (Fin y) = Qltb x y.
Proof. reflexivity. Qed.

(** ** The summary statistics *)

Lemma Qsum_app (l1 l2 : list Q) : Qsum (l1 ++ l2) == Qsum l1 + Qsum l2.
Proof.
  induction l1 as [|x l1 IH]; simpl.
  - ring.
  - rewrite IH. ring.
Qed.

Lemma summarises_step (seen : list Q) (s : Stats) (u : Q) :
  summarises seen s -> summarises (seen ++ [u]) (stats_step s u).
Proof.
  intros (Hn & Hm & Hx). unfold summarises. cbn [stats_step _n_x _mean_x _max_x _min_x].
  split; [rewrite length_app, Hn; cbn; lia|].
  split; [rewrite Qsum_app, Hm; cbn; ring|].
  destruct seen as [|v seen].
  - destruct Hx as [-> ->]. cbn.
    exists u, u. repeat split; auto.
    constructor; [split; apply Qle_refl|constructor].
  - destruct Hx as (mx & mn & -> & -> & Imx & Imn & Hall).
    cbn [app]. rewrite !float_ltb_Fin.
    assert (Hmm : mn <= mx).
    { rewrite Forall_forall in Hall. destruct (Hall mx Imx). assumption. }
    change (v :: seen ++ [u]) with ((v :: seen) ++ [u]).
    destruct (Qltb_spec mx u) as [Hu|Hu]; destruct (Qltb_spec u mn) as [Hl|Hl].
    + exfalso. lra.
    + exists u, mn. repeat split; auto.
      * apply in_or_app. right. left. reflexivity.
      * apply in_or_app. left. assumption.
      * apply Forall_app. split.
        -- eapply Forall_impl; [|exact Hall]. cbn. intros a [? ?]. split; lra.
        -- constructor; [split; lra|constructor].
    + exists mx, u. repeat split; auto.
      * apply in_or_app. left. assumption.
      * apply in_or_app. right. left. reflexivity.
      * apply Forall_app. split.
        -- eapply Forall_impl; [|exact Hall]. cbn. intros a [? ?]. split; lra.
        -- constructor; [split; lra|constructor].
    + exists mx, mn. repeat split; auto.
      * apply in_or_app. left. assumption.
      * apply in_or_app. left. assumption.
      * apply Forall_app. split.
        -- assumption.
        -- constructor; [split; lra|constructor].
Qed.

Lemma summarises_fold (l seen : list Q) (s : Stats) :
  summarises seen s -> summarises (seen ++ l) (fold_left stats_step l s).
Proof.
  revert seen s; induction l as [|u l IH]; intros seen s H.
  - rewrite app_nil_r. assumption.
  - cbn [fold_left].
    replace (seen ++ u :: l) with ((seen ++ [u]) ++ l)
      by (rewrite <- app_assoc; reflexivity).
    apply IH, summarises_step, H.
Qed.

Lemma summary_spec (data : list Q) : summarises data (summary data).
Proof.
  apply (summarises_fold data [] stats_init).
  repeat split; reflexivity.
Qed.

Lemma summary_n_x (data : list Q) : _n_x (summary data) = Z.of_nat (length data).
Proof. apply summary_spec. Qed.

Lemma summary_extremes (data : list Q) :
  data <> [] ->
  exists mx mn, _max_x (summary data) = Fin mx /\ _min_x (summary data) = Fin mn
                /\ In mx data /\ In mn data
                /\ Forall (fun u => mn <= u <= mx) data.
Proof.
  intros Hne. destruct (summary_spec data) as (_ & _ & H).
  destruct data; [congruence|assumption].
Qed.

(** ** The progression of widths *)

Lemma width_after_add (k1 k2 : nat) (sq : Z) (w : Q) :
  width_after (k1 + k2) sq w
  = width_after k2 (fst (width_after k1 sq w)) (snd (width_after k1 sq w)).
Proof.
  revert sq w; induction k1 as [|k1 IH]; intros sq w; cbn [Nat.add width_after].
  - reflexivity.
  - apply IH.
Qed.

Lemma width_after_succ (k : nat) (sq : Z) (w : Q) :
  width_after (S k) sq w
  = (next_sequence (fst (width_after k sq w)),
     next_bin_width (fst (width_after k sq w)) (snd (width_after k sq w))).
Proof.
  replace (S k) with (k + 1)%nat by lia. rewrite width_after_add. reflexivity.
Qed.

Lemma next_bin_width_compat (sq : Z) (w w' : Q) :
  w == w' -> next_bin_width sq w == next_bin_width sq w'.
Proof.
  intros E. unfold next_bin_width. destruct (sq =? 1)%Z; rewrite E; reflexivity.
Qed.

Lemma width_after_compat (k : nat) (sq : Z) (w w' : Q) :
  w == w' ->
  fst (width_after k sq w) = fst (width_after k sq w')
  /\ snd (width_after k sq w) == snd (width_after k sq w').
Proof.
  revert sq w w'; induction k as [|k IH]; intros sq w w' E; cbn [width_after].
  - split; [reflexivity|assumption].
  - apply IH, next_bin_width_compat, E.
Qed.

Lemma next_bin_width_gt (sq : Z) (w : Q) : 0 < w -> w < next_bin_width sq w.
Proof.
  intros Hw. unfold next_bin_width. destruct (sq =? 1)%Z.
  - setoid_replace ((125 # 100) * w) with (w + (1 # 4) * w) by ring. lra.
  - lra.
Qed.

Lemma width_after_four (w : Q) :
  fst (width_after 4 0%Z w) = 0%Z /\ snd (width_after 4 0%Z w) == 10 * w.
Proof. cbn. split; [reflexivity|ring]. Qed.

Lemma Qpower_10_succ (q : nat) : 10 ^ Z.of_nat (S q) == 10 * 10 ^ Z.of_nat q.
Proof.
  rewrite Nat2Z.inj_succ, <- Z.add_1_l.
  rewrite Qpower_plus by (intros E; discriminate E).
  reflexivity.
Qed.

(** After [4 q + r] passes from the start of a cycle the counter is [r]
    and the width is [nice r * 10^q] times the first one. *)
Lemma width_after_closed (q r : nat) (w : Q) :
  (r < 4)%nat ->
  fst (width_after (4 * q + r) 0%Z w) = Z.of_nat r
  /\ snd (width_after (4 * q + r) 0%Z w) == nice r * 10 ^ Z.of_nat q * w.
Proof.
  intros Hr. revert w; induction q as [|q IH]; intros w.
  - replace (4 * 0 + r)%nat with r by lia.
    destruct r as [|[|[|[|r]]]]; try lia; cbn; (split; [reflexivity|ring]).
  - replace (4 * S q + r)%nat with (4 + (4 * q + r))%nat by lia.
    rewrite width_after_add.
    destruct (width_after_four w) as [E4 W4]. rewrite E4.
    destruct (width_after_compat (4 * q + r) 0%Z _ _ W4) as [F S].
    destruct (IH (10 * w)) as [IHf IHs].
    split.
    + rewrite F. exact IHf.
    + rewrite S, IHs, Qpower_10_succ. ring.
Qed.

Lemma Qpower_10_pos (k : Z) : 0 < 10 ^ k.
Proof. apply Qpower_0_lt. reflexivity. Qed.

(** ** The numeric helpers meet their specification *)

Lemma inject_Z_lt_pow10 (z : Z) : (0 < z)%Z -> inject_Z z < 10 ^ (Z.log2 z + 1).
Proof.
  intros Hz.
  destruct (Z.log2_spec z Hz) as [_ Hup].
  pose proof (Z.log2_nonneg z) as Hnn.
  assert (Hm : (z < 10 ^ (Z.log2 z + 1))%Z).
  { eapply Z.lt_le_trans; [exact Hup|].
    unfold Z.succ. apply Z.pow_le_mono_l. lia. }
  rewrite Zlt_Qlt in Hm.
  rewrite Zpower_Qpower in Hm by lia. exact Hm.
Qed.

Lemma log10_climb_spec (fuel : nat) (k : Z) (x : Q) :
  10 ^ k <= x ->
  (k <= log10_climb fuel k x <= k + Z.of_nat fuel)%Z
  /\ 10 ^ log10_climb fuel k x <= x
  /\ (x < 10 ^ (log10_climb fuel k x + 1)
      \/ log10_climb fuel k x = (k + Z.of_nat fuel)%Z).
Proof.
  revert k; induction fuel as [|fuel IH]; intros k Hk; cbn [log10_climb].
  - split; [lia|]. split; [assumption|]. right. lia.
  - destruct (Qle_bool_spec (10 ^ (k + 1)) x) as [Hle|Hgt].
    + destruct (IH (k + 1)%Z Hle) as (Hr & Hlow & Hup).
      split; [lia|]. split; [assumption|].
      destruct Hup as [Hup|Hup]; [left; assumption|right; lia].
    + split; [lia|]. split; [assumption|]. left. apply Qnot_le_lt. assumption.
Qed.

Lemma Qnum_pos (x : Q) : 0 < x -> (0 < Qnum x)%Z.
Proof. destruct x as [n d]. unfold Qlt. cbn. lia. Qed.

Lemma Q_le_num (x : Q) : 0 < x -> x <= inject_Z (Qnum x).
Proof.
  intros Hx. pose proof (Qnum_pos x Hx) as Hn.
  destruct x as [n d]. unfold Qle. cbn in *. nia.
Qed.

Lemma Q_times_den (x : Q) : x * inject_Z (Zpos (Qden x)) == inject_Z (Qnum x).
Proof.
  destruct x as [n d]. unfold Qeq. cbn.
  rewrite ?Pos2Z.inj_mul. ring.
Qed.

(** [floor_log10 x] is the exponent of the largest power of ten that is
    at most [x]. *)
Lemma floor_log10_spec (x : Q) :
  0 < x -> 10 ^ floor_log10 x <= x /\ x < 10 ^ (floor_log10 x + 1).
Proof.
  intros Hx. unfold floor_log10.
  pose proof (Qnum_pos x Hx) as Hn.
  pose proof (Z.log2_nonneg (Qnum x)) as Hln.
  pose proof (Z.log2_nonneg (Zpos (Qden x))) as Hld.
  set (lo := (- (Z.log2 (Zpos (Qden x)) + 1))%Z).
  set (fuel := Z.to_nat (Z.log2 (Qnum x) + Z.log2 (Zpos (Qden x)) + 2)).
  assert (Hlo : 10 ^ lo <= x).
  { unfold lo. rewrite Qpower_opp.
    apply Qle_shift_inv_r; [apply Qpower_10_pos|].
    pose proof (inject_Z_lt_pow10 (Zpos (Qden x)) eq_refl) as Hd.
    pose proof (Q_times_den x) as Hxd.
    assert (H1 : 1 <= inject_Z (Qnum x)).
    { change 1 with (inject_Z 1). rewrite <- Zle_Qle. lia. }
    assert (H2 : x * inject_Z (Zpos (Qden x))
                 <= x * 10 ^ (Z.log2 (Zpos (Qden x)) + 1)).
    { apply Qmult_le_l; [assumption|]. apply Qlt_le_weak. assumption. }
    lra. }
  destruct (log10_climb_spec fuel lo x Hlo) as (Hr & Hlow & Hup).
  split; [assumption|].
  destruct Hup as [Hup|Hup]; [assumption|exfalso].
  rewrite Hup in Hlow.
  replace (lo + Z.of_nat fuel)%Z with (Z.log2 (Qnum x) + 1)%Z in Hlow
    by (unfold lo, fuel; lia).
  pose proof (inject_Z_lt_pow10 (Qnum x) Hn).
  pose proof (Q_le_num x Hx). lra.
Qed.

(** [ceil_log10 x] is the exponent of the smallest power of ten that is
    at least [x]. *)
Lemma ceil_log10_spec (x : Q) :
  0 < x -> 10 ^ (ceil_log10 x - 1) < x /\ x <= 10 ^ ceil_log10 x.
Proof.
  intros Hx. unfold ceil_log10.
  destruct (floor_log10_spec x Hx) as [Hlow Hup].
  destruct (Qeq_bool (10 ^ floor_log10 x) x) eqn:E.
  - apply Qeq_bool_iff in E. split.
    + eapply Qlt_le_trans; [|exact Hlow].
      apply Qpower_lt_compat_l; [lia|reflexivity].
    + apply Qle_lteq. right. symmetry. exact E.
  - apply Qeq_bool_neq in E.
    replace (floor_log10 x + 1 - 1)%Z with (floor_log10 x) by lia.
    split; [|apply Qlt_le_weak; assumption].
    apply Qle_lt_or_eq in Hlow. destruct Hlow; [assumption|contradiction].
Qed.

(** [numpy_round x] is an integer nearest to [x]. *)
Lemma numpy_round_spec (x : Q) :
  inject_Z (numpy_round x) - (1 # 2) <= x
  /\ x <= inject_Z (numpy_round x) + (1 # 2).
Proof.
  unfold numpy_round.
  pose proof (Qfloor_le x) as Hf. pose proof (Qlt_floor x) as Hc.
  rewrite inject_Z_plus in Hc. change (inject_Z 1) with 1 in Hc.
  destruct (Qltb_spec (x - inject_Z (Qfloor x)) (1 # 2)) as [H1|H1].
  - split; lra.
  - destruct (Qltb_spec (1 # 2) (x - inject_Z (Qfloor x))) as [H2|H2].
    + rewrite inject_Z_plus. change (inject_Z 1) with 1. split; lra.
    + destruct (Z.even (Qfloor x)).
      * split; lra.
      * rewrite inject_Z_plus. change (inject_Z 1) with 1. split; lra.
Qed.

(** On a positive width and a positive range there is at least one bin. *)
Lemma n_bin_of_pos (mean_x min_x max_x bw : Q) :
  0 < bw -> min_x < max_x -> (1 <= n_bin_of mean_x min_x max_x bw)%Z.
Proof.
  intros Hbw Hr. unfold n_bin_of, n_bin_left_of, n_bin_right_of.
  set (m := middle_of mean_x bw).
  pose proof (Qle_ceiling ((m - min_x) / bw)) as Hl.
  pose proof (Qle_ceiling ((max_x - m) / bw)) as Hrg.
  assert (Hsum : 0 < (m - min_x) / bw + (max_x - m) / bw).
  { setoid_replace ((m - min_x) / bw + (max_x - m) / bw)
      with ((max_x - min_x) / bw) by (field; lra).
    apply Qlt_shift_div_l; [assumption|]. lra. }
  assert (H : 0 < inject_Z (Qceiling ((m - min_x) / bw)
                            + Qceiling ((max_x - m) / bw))).
  { rewrite inject_Z_plus. lra. }
  change 0 with (inject_Z 0) in H. rewrite <- Zlt_Qlt in H. lia.
Qed.

(** ** One pass of the sweep *)

Lemma make_boundary_Return (n_bin : Z) (low_x bw : Q) (bnd : list float) :
  make_boundary n_bin low_x bw = Return bnd ->
  (1 <= n_bin)%Z /\ length bnd = Z.to_nat n_bin.
Proof.
  unfold make_boundary.
  destruct (Z.ltb_spec n_bin 0); [discriminate|].
  destruct (Z.eqb_spec n_bin 0); [discriminate|].
  destruct (Z.gtb_spec n_bin 2).
  - intros E; inversion E; subst. split; [lia|].
    cbn [length]. unfold arange. rewrite !length_map, length_seq. lia.
  - destruct (Z.eqb_spec n_bin 2); intros E; inversion E; subst; cbn; split; lia.
Qed.

Lemma make_boundary_total (n_bin : Z) (low_x bw : Q) :
  (1 <= n_bin)%Z -> exists bnd, make_boundary n_bin low_x bw = Return bnd.
Proof.
  intros Hn. unfold make_boundary.
  destruct (Z.ltb_spec n_bin 0); [lia|].
  destruct (Z.eqb_spec n_bin 0); [lia|].
  destruct (n_bin >? 2)%Z; [eexists; reflexivity|].
  destruct (n_bin =? 2)%Z; eexists; reflexivity.
Qed.

Lemma StronglySorted_snoc {A : Type} (R : A -> A -> Prop) (l : list A) (a : A) :
  StronglySorted R l -> Forall (fun x => R x a) l -> StronglySorted R (l ++ [a]).
Proof.
  induction 1 as [|x l Hs IH Hx]; intros Hall; cbn.
  - constructor; constructor.
  - inversion Hall; subst. constructor.
    + apply IH. assumption.
    + apply Forall_app. split; [assumption|constructor; [assumption|constructor]].
Qed.

Section SweepFacts.

Variable data : list Q.
Variables (n_x : Z) (mean_x min_x max_x : Q).
Variables (lo hi : Z).
Variable max_bin_width : Q.

Let n_bin_at := n_bin_of mean_x min_x max_x.
Let record := record_candidate data n_x mean_x min_x max_x lo hi.
Let body := sweep_body data n_x mean_x min_x max_x lo hi.
Let run := sweep data n_x mean_x min_x max_x lo hi max_bin_width.

(** A pass either skips the width or appends one candidate for it. *)
Lemma record_candidate_Return (st st' : LoopState) :
  record st = Return st' ->
  ((n_bin_at (bin_width st) < lo \/ hi < n_bin_at (bin_width st))%Z /\ st' = st)
  \/ (exists d criterion,
        (lo <= n_bin_at (bin_width st) <= hi)%Z
        /\ (2 <= n_bin_at (bin_width st))%Z
        /\ n_rows d = Z.to_nat (n_bin_at (bin_width st))
        /\ well_formed d
        /\ Zsum (FREQUENCY d) = Z.of_nat (length data)
        /\ st' = {| self_of := append_candidate (self_of st) (bin_width st)
                                 criterion (n_bin_at (bin_width st)) d;
                    sequence := sequence st;
                    bin_width := bin_width st;
                    n_candidates := (n_candidates st + 1)%Z |}).
Proof.
  unfold record, record_candidate. fold (n_bin_at (bin_width st)).
  destruct (Z.leb_spec lo (n_bin_at (bin_width st))) as [Hlo|Hlo];
    destruct (Z.leb_spec (n_bin_at (bin_width st)) hi) as [Hhi|Hhi]; cbn [andb];
    try (intros E; inversion E; subst; left; split; [lia|reflexivity]).
  destruct (make_boundary _ _ _) as [bnd|e] eqn:Eb; cbn [bind]; [|discriminate].
  destruct (bin_frequency data bnd) as [d|e] eqn:Ef; cbn [bind]; [|discriminate].
  intros E; inversion E; subst; clear E. right.
  apply make_boundary_Return in Eb. destruct Eb as [H1 Hlen].
  apply bin_frequency_Return_inv in Ef. destruct Ef as (H2 & HL & Hwf & Hsum).
  exists d; eexists. unfold n_rows. rewrite HL.
  split; [lia|]. split; [lia|]. split; [assumption|].
  split; [assumption|]. split; [assumption|reflexivity].
Qed.

(** The exceptions a pass can raise: [numpy.len] on a single bin within
    the limits, or an array of no or negative size. *)
Lemma record_candidate_Raise (st : LoopState) (e : exn) :
  record st = Raise e ->
  (lo <= n_bin_at (bin_width st) <= hi)%Z
  /\ ((n_bin_at (bin_width st) = 1%Z /\ e = NumpyLenError)
      \/ ((n_bin_at (bin_width st) <= 0)%Z
          /\ (e = IndexError \/ e = NegativeDimensionError))).
Proof.
  unfold record, record_candidate. fold (n_bin_at (bin_width st)).
  destruct (Z.leb_spec lo (n_bin_at (bin_width st))) as [Hlo|Hlo];
    destruct (Z.leb_spec (n_bin_at (bin_width st)) hi) as [Hhi|Hhi]; cbn [andb];
    try discriminate.
  set (n := n_bin_at (bin_width st)) in *.
  destruct (make_boundary n _ _) as [bnd|e'] eqn:Eb; cbn [bind].
  - apply make_boundary_Return in Eb. destruct Eb as [H1 Hlen].
    destruct (Nat.le_gt_cases 2 (length bnd)) as [H2|H2].
    + destruct (bin_frequency_sum data bnd H2) as (d & -> & _). discriminate.
    + intros E. split; [lia|]. left. split; [lia|].
      unfold bin_frequency in E.
      destruct (Nat.eqb_spec (length bnd) 0); [lia|].
      destruct (Nat.leb_spec 2 (length bnd)); [lia|].
      inversion E. reflexivity.
  - intros E; inversion E; subst. unfold make_boundary in Eb.
    split; [lia|]. right.
    destruct (Z.ltb_spec n 0).
    + inversion Eb. split; [lia|]. auto.
    + destruct (Z.eqb_spec n 0).
      * inversion Eb. split; [lia|]. auto.
      * destruct (n >? 2)%Z; [discriminate|]. destruct (n =? 2)%Z; discriminate.
Qed.

Lemma sweep_body_Return (st st' : LoopState) :
  body st = Return st' ->
  exists st1, record st = Return st1 /\ st' = advance st1.
Proof.
  unfold body, sweep_body. fold record.
  destruct (record st) as [st1|e]; cbn [bind]; [|discriminate].
  intros E; inversion E. exists st1. auto.
Qed.

Lemma sweep_body_Raise (st : LoopState) (e : exn) :
  body st = Raise e -> record st = Raise e.
Proof.
  unfold body, sweep_body. fold record.
  destruct (record st) as [st1|e']; cbn [bind]; [discriminate|].
  intros E; inversion E. reflexivity.
Qed.

Lemma record_candidate_width (st st' : LoopState) :
  record st = Return st' ->
  bin_width st' = bin_width st /\ sequence st' = sequence st.
Proof.
  intros H. apply record_candidate_Return in H.
  destruct H as [[_ ->]|(d & c & _ & _ & _ & _ & _ & ->)]; auto.
Qed.

(** A pass moves the counter and the width as lines 196-205 say,
    whatever it recorded. *)
Lemma sweep_body_width (st st' : LoopState) :
  body st = Return st' ->
  sequence st' = next_sequence (sequence st)
  /\ bin_width st' = next_bin_width (sequence st) (bin_width st).
Proof.
  intros H. apply sweep_body_Return in H. destruct H as (st1 & H1 & ->).
  apply record_candidate_width in H1. destruct H1 as [Hw Hs].
  cbn. rewrite Hw, Hs. auto.
Qed.

(** The loop rule: what every pass preserves holds at the exit. *)
Lemma sweep_preserves (P : LoopState -> Prop) :
  (forall st st', P st -> bin_width st <= max_bin_width ->
                  body st = Return st' -> P st') ->
  forall fuel st, P st -> P (fst (run fuel st)).
Proof.
  intros Hstep. induction fuel as [|fuel IH]; intros st HP; cbn.
  - assumption.
  - destruct (Qle_bool_spec (bin_width st) max_bin_width) as [Hle|Hgt].
    + fold body. destruct (body st) as [st'|e] eqn:Eb; cbn.
      * apply IH. eapply Hstep; eassumption.
      * assumption.
    + assumption.
Qed.

End SweepFacts.

(** ** Invariants of the sweep *)

Section SweepInvariants.

Variable data : list Q.
Variables (n_x : Z) (mean_x min_x max_x : Q).
Variables (lo hi : Z).
Variables (min_bin_width max_bin_width : Q).

Let body := sweep_body data n_x mean_x min_x max_x lo hi.
Let run := sweep data n_x mean_x min_x max_x lo hi max_bin_width.

Lemma frames_ok_step (st st' : LoopState) :
  frames_ok data lo hi (self_of st) -> body st = Return st' ->
  frames_ok data lo hi (self_of st').
Proof.
  intros Hinv Hb. apply sweep_body_Return in Hb. destruct Hb as (st1 & Hr & ->).
  cbn [advance self_of].
  apply record_candidate_Return in Hr.
  destruct Hr as [[_ ->]|(d & c & Hlim & H2 & Hrows & Hwf & Hsum & ->)];
    [assumption|].
  unfold frames_ok in *. cbn [self_of append_candidate list_n_bin list_bin_boundary].
  apply Forall2_app; [assumption|].
  constructor; [|constructor].
  rewrite Hrows. repeat split; try assumption; try lia; apply Hwf.
Qed.

Lemma widths_ok_step (st st' : LoopState) :
  widths_ok min_bin_width max_bin_width st ->
  bin_width st <= max_bin_width -> body st = Return st' ->
  widths_ok min_bin_width max_bin_width st'.
Proof.
  intros (Hsort & Hall & Hmin & Hpos) Hguard Hb.
  apply sweep_body_Return in Hb. destruct Hb as (st1 & Hr & ->).
  pose proof (next_bin_width_gt (sequence st) (bin_width st) Hpos) as Hgrow.
  apply record_candidate_Return in Hr.
  destruct Hr as [[_ ->]|(d & c & _ & _ & _ & _ & _ & ->)];
    unfold widths_ok;
    cbn [advance self_of bin_width sequence append_candidate bin_width_candidate].
  - split; [assumption|]. split; [|split; lra].
    eapply Forall_impl; [|exact Hall]. cbn. intros w [? ?]. split; [assumption|lra].
  - split; [|split; [|split; lra]].
    + apply StronglySorted_snoc; [assumption|].
      eapply Forall_impl; [|exact Hall]. cbn. intros w [_ ?]. assumption.
    + apply Forall_app. split.
      * eapply Forall_impl; [|exact Hall]. cbn. intros w [? ?].
        split; [assumption|lra].
      * constructor; [|constructor]. split; [split; assumption|assumption].
Qed.

Lemma lengths_ok_step (st st' : LoopState) :
  lengths_ok st -> body st = Return st' -> lengths_ok st'.
Proof.
  intros (H1 & H2 & H3 & H4) Hb.
  apply sweep_body_Return in Hb. destruct Hb as (st1 & Hr & ->).
  apply record_candidate_Return in Hr.
  destruct Hr as [[_ ->]|(d & c & _ & _ & _ & _ & _ & ->)];
    unfold lengths_ok;
    cbn [advance self_of n_candidates append_candidate bin_width_candidate
         list_criterion list_n_bin list_bin_boundary].
  - auto.
  - rewrite !length_app. cbn [length]. repeat split; lia.
Qed.

Lemma scalars_kept_step (self0 : Binning) (st st' : LoopState) :
  scalars_kept self0 st -> body st = Return st' -> scalars_kept self0 st'.
Proof.
  intros Hinv Hb.
  apply sweep_body_Return in Hb. destruct Hb as (st1 & Hr & ->).
  apply record_candidate_Return in Hr.
  destruct Hr as [[_ ->]|(d & c & _ & _ & _ & _ & _ & ->)]; exact Hinv.
Qed.

Variable self0 : Binning.
Hypothesis min_pos : 0 < min_bin_width.

Let start := sweep_start (reset_lists self0) min_bin_width.

Lemma sweep_frames_ok (fuel : nat) :
  frames_ok data lo hi (self_of (fst (run fuel start))).
Proof.
  apply (sweep_preserves data n_x mean_x min_x max_x lo hi max_bin_width
           (fun st => frames_ok data lo hi (self_of st))).
  - intros st st' H _ Hb. eapply frames_ok_step; eassumption.
  - constructor.
Qed.

Lemma sweep_widths_ok (fuel : nat) :
  widths_ok min_bin_width max_bin_width (fst (run fuel start)).
Proof.
  apply (sweep_preserves data n_x mean_x min_x max_x lo hi max_bin_width
           (widths_ok min_bin_width max_bin_width)).
  - intros st st' H Hg Hb. eapply widths_ok_step; eassumption.
  - repeat split; cbn; try constructor; try assumption. apply Qle_refl.
Qed.

Lemma sweep_lengths_ok (fuel : nat) : lengths_ok (fst (run fuel start)).
Proof.
  apply (sweep_preserves data n_x mean_x min_x max_x lo hi max_bin_width lengths_ok).
  - intros st st' H _ Hb. eapply lengths_ok_step; eassumption.
  - repeat split.
Qed.

Lemma sweep_scalars_kept (fuel : nat) :
  scalars_kept self0 (fst (run fuel start)).
Proof.
  apply (sweep_preserves data n_x mean_x min_x max_x lo hi max_bin_width
           (scalars_kept self0)).
  - intros st st' H _ Hb. eapply scalars_kept_step; eassumption.
  - repeat split.
Qed.

End SweepInvariants.

(** ** Termination of the sweep *)

Section SweepTrace.

Variable data : list Q.
Variables (n_x : Z) (mean_x min_x max_x : Q).
Variables (lo hi : Z).
Variable max_bin_width : Q.

Let body := sweep_body data n_x mean_x min_x max_x lo hi.
Let run := sweep data n_x mean_x min_x max_x lo hi max_bin_width.

(** The loop makes some number [k] of full passes: the first [k] widths
    of the progression passed the guard, and the state at exit holds
    width number [k]. Without a pending exception the loop stopped
    either on the guard or because the unrolling was used up. *)
Lemma sweep_trace (fuel : nat) (st st' : LoopState) (pending : option exn) :
  run fuel st = (st', pending) ->
  exists k : nat,
    (k <= fuel)%nat
    /\ sequence st' = fst (width_after k (sequence st) (bin_width st))
    /\ bin_width st' = snd (width_after k (sequence st) (bin_width st))
    /\ (forall j, (j < k)%nat ->
                  snd (width_after j (sequence st) (bin_width st)) <= max_bin_width)
    /\ (pending = None -> k = fuel \/ max_bin_width < bin_width st').
Proof.
  revert st; induction fuel as [|fuel IH]; intros st H; cbn in H.
  - inversion H; subst. exists 0%nat. cbn. repeat split; auto; intros; lia.
  - destruct (Qle_bool_spec (bin_width st) max_bin_width) as [Hle|Hgt].
    + fold body in H. destruct (body st) as [st1|e] eqn:Eb.
      * apply IH in H. destruct H as (k & Hk & Hs & Hw & Hall & Hp).
        apply sweep_body_width in Eb. destruct Eb as [Es Ew].
        rewrite Es, Ew in *.
        exists (S k). cbn [width_after]. repeat split; auto; try lia.
        -- intros [|j] Hj; cbn [width_after snd]; [assumption|].
           apply Hall. lia.
        -- intros Hn. destruct (Hp Hn) as [->|?]; auto.
      * inversion H; subst. exists 0%nat. cbn.
        split; [lia|]. split; [reflexivity|]. split; [reflexivity|].
        split; [intros; lia|discriminate].
    + inversion H; subst. exists 0%nat. cbn.
      split; [lia|]. split; [reflexivity|]. split; [reflexivity|].
      split; [intros; lia|].
      intros _. right. apply Qnot_le_lt. assumption.
Qed.

End SweepTrace.

(** The unrolling [sweep_fuel a b] is never used up: started at [10^a]
    with the guard [<= 10^b], the loop stops on its guard. *)
Lemma sweep_exits_on_guard (data : list Q) (n_x : Z) (mean_x min_x max_x : Q)
    (lo hi : Z) (a b : Z) (self : Binning) (st' : LoopState) :
  sweep data n_x mean_x min_x max_x lo hi (10 ^ b) (sweep_fuel a b)
        (sweep_start self (10 ^ a)) = (st', None) ->
  10 ^ b < bin_width st'.
Proof.
  intros H. apply sweep_trace in H.
  destruct H as (k & Hk & Hs & Hw & Hall & Hp).
  destruct (Hp eq_refl) as [->|Hexit]; [|assumption].
  cbn [sweep_start sequence bin_width] in *.
  destruct (Z.lt_ge_cases b a) as [Hba|Hab].
  - assert (E : sweep_fuel a b = 0%nat) by (unfold sweep_fuel; lia).
    rewrite E in Hw. cbn in Hw. rewrite Hw.
    apply Qpower_lt_compat_l; [assumption|reflexivity].
  - exfalso.
    assert (Hj : (4 * Z.to_nat (b - a) + 1 < sweep_fuel a b)%nat)
      by (unfold sweep_fuel; lia).
    specialize (Hall _ Hj).
    destruct (width_after_closed (Z.to_nat (b - a)) 1 (10 ^ a)) as [_ Hc]; [lia|].
    rewrite Hc in Hall. cbn [nice] in Hall.
    rewrite Z2Nat.id in Hall by lia.
    assert (E : 10 ^ (b - a) * 10 ^ a == 10 ^ b).
    { rewrite <- Qpower_plus by (intros E; discriminate E).
      replace (b - a + a)%Z with b by lia. reflexivity. }
    pose proof (Qpower_10_pos b) as Hpos.
    rewrite <- Qmult_assoc, E in Hall. lra.
Qed.

(** ** The selection of the optimum *)

Lemma nth_error_snoc_cases {A : Type} (l : list A) (a : A) (j : nat) (w : A) :
  nth_error (l ++ [a]) j = Some w ->
  ((j < length l)%nat /\ nth_error l j = Some w) \/ (j = length l /\ w = a).
Proof.
  intros H. destruct (Nat.lt_ge_cases j (length l)) as [Hlt|Hge].
  - left. rewrite nth_error_app1 in H by assumption. auto.
  - right. rewrite nth_error_app2 in H by assumption.
    destruct (j - length l)%nat as [|m] eqn:E; cbn in H.
    + inversion H. split; [lia|reflexivity].
    + destruct m; discriminate.
Qed.

Lemma scanned_step (seen : list Q) (c : float) (p : option nat) (v : Q) :
  scanned seen c p ->
  scanned (seen ++ [v])
          (if float_ltb (Fin v) c then Fin v else c)
          (if float_ltb (Fin v) c then Some (length seen) else p).
Proof.
  intros [(-> & -> & ->)|(i & m & -> & -> & Hi & Hmin)].
  - right. exists 0%nat, v. cbn. repeat split; auto.
    + destruct j as [|[|j]]; cbn in H; inversion H; subst. apply Qle_refl.
    + intros; lia.
  - right. rewrite float_ltb_Fin.
    assert (Hlt : (i < length seen)%nat) by (apply nth_error_Some; congruence).
    destruct (Qltb_spec v m) as [Hv|Hv].
    + exists (length seen), v. split; [reflexivity|]. split; [reflexivity|]. split.
      * rewrite nth_error_app2 by lia. rewrite Nat.sub_diag. reflexivity.
      * intros j w Hj. apply nth_error_snoc_cases in Hj.
        destruct Hj as [[Hjl Hj]|[-> ->]].
        -- destruct (Hmin j w Hj) as [Hle _]. split; [lra|intros; lra].
        -- split; [apply Qle_refl|intros; lia].
    + exists i, m. split; [reflexivity|]. split; [reflexivity|]. split.
      * rewrite nth_error_app1 by assumption. assumption.
      * intros j w Hj. apply nth_error_snoc_cases in Hj.
        destruct Hj as [[Hjl Hj]|[-> ->]].
        -- apply Hmin. assumption.
        -- split; [lra|intros; lia].
Qed.

Lemma select_lowest_scanned (l seen : list Q) (c : float) (p : option nat) :
  scanned seen c p ->
  scanned (seen ++ l)
          (fst (select_lowest l (length seen) c p))
          (snd (select_lowest l (length seen) c p)).
Proof.
  revert seen c p; induction l as [|v l IH]; intros seen c p H.
  - rewrite app_nil_r. assumption.
  - cbn [select_lowest].
    replace (seen ++ v :: l) with ((seen ++ [v]) ++ l)
      by (rewrite <- app_assoc; reflexivity).
    replace (S (length seen)) with (length (seen ++ [v]))
      by (rewrite length_app; cbn; lia).
    pose proof (scanned_step seen c p v H) as Hs.
    destruct (float_ltb (Fin v) c); apply IH; assumption.
Qed.

(** [select_optimum] on a non-empty list of criteria stores the first
    minimum; on an empty list it stores nothing. *)
Lemma select_optimum_spec (self : Binning) :
  bin_width_candidate (select_optimum self) = bin_width_candidate self
  /\ list_criterion (select_optimum self) = list_criterion self
  /\ list_n_bin (select_optimum self) = list_n_bin self
  /\ list_bin_boundary (select_optimum self) = list_bin_boundary self
  /\ min_n_bin (select_optimum self) = min_n_bin self
  /\ max_n_bin (select_optimum self) = max_n_bin self
  /\ match list_criterion self with
     | [] => select_optimum self = self
     | _ :: _ =>
         exists p v, optimal_position (select_optimum self) = Some p
                     /\ optimal_criterion (select_optimum self) = Fin v
                     /\ is_first_minimum (list_criterion self) p v
     end.
Proof.
  unfold select_optimum.
  pose proof (select_lowest_scanned (list_criterion self) [] PINF None) as H.
  cbn [app length] in H.
  destruct (select_lowest (list_criterion self) 0 PINF None) as [c p].
  cbn [fst snd] in H.
  assert (Hs : scanned (list_criterion self) c p) by (apply H; left; auto).
  clear H.
  destruct p as [p|]; cbn; repeat (split; [reflexivity|]).
  - destruct Hs as [(E & _ & Hp)|(i & v & Hp & Hc & Hmin)]; [discriminate|].
    inversion Hp; subst.
    destruct (list_criterion self) eqn:E.
    + destruct Hmin as [Hn _]. destruct i; discriminate.
    + exists i, v. auto.
  - destruct Hs as [(E & _ & _)|(i & v & Hp & _)]; [|discriminate].
    rewrite E. reflexivity.
Qed.

(** ** The structure of a run *)

Lemma resolve_limits_spec (self : Binning) (lo_arg hi_arg : option Z) (n_x : Z) :
  let self' := resolve_limits self lo_arg hi_arg n_x in
  min_n_bin self' = Some (default_min_n_bin lo_arg)
  /\ max_n_bin self' = Some (default_max_n_bin hi_arg n_x)
  /\ bin_width_candidate self' = bin_width_candidate self
  /\ list_criterion self' = list_criterion self
  /\ list_n_bin self' = list_n_bin self
  /\ list_bin_boundary self' = list_bin_boundary self
  /\ optimal_criterion self' = optimal_criterion self
  /\ optimal_position self' = optimal_position self.
Proof.
  unfold resolve_limits.
  destruct (default_max_n_bin hi_arg n_x <? default_min_n_bin lo_arg)%Z;
    cbn; repeat split.
Qed.

Lemma optimal_binning_empty (self : Binning) (lo_arg hi_arg : option Z) :
  optimal_binning self [] lo_arg hi_arg = (self, Raise EmptyInputError).
Proof. reflexivity. Qed.

(** On a non-empty sample the extremes are values of the sample, and the
    run continues with the limits resolved. *)
Lemma optimal_binning_nonempty (self : Binning) (data : list Q)
    (lo_arg hi_arg : option Z) :
  data <> [] ->
  exists mx mn,
    _max_x (summary data) = Fin mx /\ _min_x (summary data) = Fin mn
    /\ In mx data /\ In mn data /\ Forall (fun u => mn <= u <= mx) data
    /\ sample_range data = mx - mn
    /\ optimal_binning self data lo_arg hi_arg
       = binning_of_range
           (resolve_limits self lo_arg hi_arg (_n_x (summary data)))
           data (_n_x (summary data))
           (_mean_x (summary data) / inject_Z (_n_x (summary data))) mn mx.
Proof.
  intros Hne.
  destruct (summary_extremes data Hne) as (mx & mn & Emx & Emn & Imx & Imn & Hall).
  exists mx, mn. repeat (split; [assumption|]).
  unfold sample_range, optimal_binning. rewrite Emx, Emn.
  split; [reflexivity|].
  rewrite summary_n_x.
  destruct (Z.ltb_spec 0 (Z.of_nat (length data))) as [_|H]; [reflexivity|].
  destruct data; [congruence|cbn in H; lia].
Qed.

Lemma sweep_pending_cases (data : list Q) (n_x : Z) (mean_x min_x max_x : Q)
    (lo hi : Z) (maxw : Q) (fuel : nat) (st st' : LoopState) (e : exn) :
  sweep data n_x mean_x min_x max_x lo hi maxw fuel st = (st', Some e) ->
  (lo <= 1)%Z
  /\ (e = NumpyLenError \/ e = IndexError \/ e = NegativeDimensionError).
Proof.
  revert st; induction fuel as [|fuel IH]; intros st H; cbn in H.
  - discriminate.
  - destruct (Qle_bool (bin_width st) maxw); [|discriminate].
    destruct (sweep_body data n_x mean_x min_x max_x lo hi st) as [st1|e1] eqn:Eb.
    + eapply IH; eassumption.
    + inversion H; subst. apply sweep_body_Raise, record_candidate_Raise in Eb.
      destruct Eb as (Hlim & [[H1 ->]|[H1 [-> | ->]]]); split; auto; lia.
Qed.

(** A pending exception was raised by the pass on the state at exit. *)
Lemma sweep_pending_body (data : list Q) (n_x : Z) (mean_x min_x max_x : Q)
    (lo hi : Z) (maxw : Q) (fuel : nat) (st st' : LoopState) (e : exn) :
  sweep data n_x mean_x min_x max_x lo hi maxw fuel st = (st', Some e) ->
  sweep_body data n_x mean_x min_x max_x lo hi st' = Raise e.
Proof.
  revert st; induction fuel as [|fuel IH]; intros st H; cbn in H.
  - discriminate.
  - destruct (Qle_bool (bin_width st) maxw); [|discriminate].
    destruct (sweep_body data n_x mean_x min_x max_x lo hi st) as [st1|e1] eqn:Eb.
    + eapply IH; eassumption.
    + inversion H; subst. assumption.
Qed.

(** On a positive range the loop raises nothing but the [numpy.len]
    error, and only when one bin is within the limits. *)
Lemma sweep_of_range_pending (self : Binning) (data : list Q) (n_x : Z)
    (mean_x min_x max_x : Q) (lo hi : Z) (st : LoopState) (e : exn) :
  min_x < max_x ->
  sweep_of_range self data n_x mean_x min_x max_x lo hi = (st, Some e) ->
  e = NumpyLenError /\ (lo <= 1 <= hi)%Z.
Proof.
  intros Hr H. unfold sweep_of_range in H.
  pose proof (sweep_widths_ok data n_x mean_x min_x max_x lo hi
                (min_bin_width_of (max_x - min_x) hi)
                (max_bin_width_of (max_x - min_x) lo)
                self (Qpower_10_pos _)
                (sweep_fuel (floor_log10 ((max_x - min_x) / inject_Z hi))
                            (ceil_log10 ((max_x - min_x) / inject_Z lo))))
    as Hw.
  rewrite H in Hw. cbn [fst] in Hw. destruct Hw as (_ & _ & _ & Hpos).
  apply sweep_pending_body, sweep_body_Raise, record_candidate_Raise in H.
  pose proof (n_bin_of_pos mean_x min_x max_x (bin_width st) Hpos Hr) as Hn.
  destruct H as (Hlim & [[H1 ->]|[H0 _]]); [|lia].
  split; [reflexivity|lia].
Qed.

(** The ways [binning_of_range] ends. *)
Lemma binning_of_range_Return (self : Binning) (data : list Q) (n_x : Z)
    (mean_x min_x max_x : Q) (s' : Binning) (ret : Z) :
  binning_of_range self data n_x mean_x min_x max_x = (s', Return ret) ->
  exists hi lo st,
    max_n_bin self = Some hi /\ min_n_bin self = Some lo
    /\ 0 < max_x - min_x
    /\ sweep_of_range self data n_x mean_x min_x max_x lo hi = (st, None)
    /\ s' = select_optimum (self_of st)
    /\ ret = n_candidates st.
Proof.
  unfold binning_of_range.
  destruct (Qltb_spec 0 (max_x - min_x)) as [Hr|Hr]; [|discriminate].
  destruct (max_n_bin self) as [hi|]; [|discriminate].
  destruct (min_n_bin self) as [lo|]; [|discriminate].
  destruct (log10_quotient_check (max_x - min_x) hi); [discriminate|].
  destruct (log10_quotient_check (max_x - min_x) lo); [discriminate|].
  destruct (sweep_of_range _ _ _ _ _ _ _ _) as [st pending] eqn:Es.
  destruct pending as [e|]; [discriminate|].
  intros E; inversion E; subst.
  exists hi, lo, st. repeat split; auto.
Qed.

Lemma log10_quotient_check_Some (range_x : Q) (n : Z) (e : exn) :
  log10_quotient_check range_x n = Some e ->
  e = ZeroDivisionError \/ e = MathDomainError.
Proof.
  unfold log10_quotient_check.
  destruct (n =? 0)%Z; [intros E; inversion E; auto|].
  destruct (Qltb _ _); [intros E; inversion E; auto|discriminate].
Qed.

Lemma binning_of_range_Raise (self : Binning) (data : list Q) (n_x : Z)
    (mean_x min_x max_x : Q) (s' : Binning) (e : exn) :
  binning_of_range self data n_x mean_x min_x max_x = (s', Raise e) ->
  (e = DegenerateRangeError /\ ~ 0 < max_x - min_x /\ s' = self)
  \/ (0 < max_x - min_x /\ raised_in_search e).
Proof.
  unfold binning_of_range, raised_in_search.
  destruct (Qltb_spec 0 (max_x - min_x)) as [Hr|Hr].
  - intros H. right. split; [assumption|]. revert H.
    destruct (max_n_bin self) as [hi|]; [|intros E; inversion E; auto].
    destruct (min_n_bin self) as [lo|]; [|intros E; inversion E; auto].
    destruct (log10_quotient_check (max_x - min_x) hi) as [e1|] eqn:E1.
    { apply log10_quotient_check_Some in E1. intros E; inversion E; subst.
      destruct E1; auto. }
    destruct (log10_quotient_check (max_x - min_x) lo) as [e1|] eqn:E2.
    { apply log10_quotient_check_Some in E2. intros E; inversion E; subst.
      destruct E2; auto. }
    destruct (sweep_of_range _ _ _ _ _ _ _ _) as [st pending] eqn:Es.
    destruct pending as [e1|]; [|discriminate].
    intros E; inversion E; subst.
    apply sweep_pending_cases in Es. destruct Es as [_ [H|[H|H]]]; auto 10.
  - intros E; inversion E. auto.
Qed.

Lemma raised_in_search_not_degenerate (e : exn) :
  raised_in_search e -> e <> DegenerateRangeError /\ e <> EmptyInputError.
Proof.
  unfold raised_in_search.
  intros [H|[H|[H|[H|[H|H]]]]]; subst; split; discriminate.
Qed.

Lemma binning_of_range_degenerate (self : Binning) (data : list Q) (n_x : Z)
    (mean_x min_x max_x : Q) :
  ~ 0 < max_x - min_x ->
  binning_of_range self data n_x mean_x min_x max_x
  = (self, Raise DegenerateRangeError).
Proof.
  intros H. unfold binning_of_range.
  destruct (Qltb_spec 0 (max_x - min_x)); [contradiction|reflexivity].
Qed.

(** What holds after every run that returns. *)
Lemma run_Return_facts (self : Binning) (data : list Q) (lo_arg hi_arg : option Z)
    (s' : Binning) (n : Z) :
  optimal_binning self data lo_arg hi_arg = (s', Return n) ->
  let n_x := _n_x (summary data) in
  let self1 := resolve_limits self lo_arg hi_arg n_x in
  let lo := default_min_n_bin lo_arg in
  let hi := default_max_n_bin hi_arg n_x in
  let minw := search_min_width data hi_arg in
  let maxw := search_max_width data lo_arg in
  exists mx mn st,
    _max_x (summary data) = Fin mx /\ _min_x (summary data) = Fin mn
    /\ 0 < mx - mn
    /\ sweep_of_range self1 data n_x (_mean_x (summary data) / inject_Z n_x)
                      mn mx lo hi = (st, None)
    /\ s' = select_optimum (self_of st)
    /\ n = n_candidates st
    /\ frames_ok data lo hi (self_of st)
    /\ widths_ok minw maxw st
    /\ lengths_ok st
    /\ scalars_kept self1 st
    /\ maxw < bin_width st
    /\ exists k : nat,
         sequence st = fst (width_after k 0%Z minw)
         /\ bin_width st = snd (width_after k 0%Z minw)
         /\ forall j, (j < k)%nat -> snd (width_after j 0%Z minw) <= maxw.
Proof.
  intros H. cbn zeta.
  destruct data as [|u data]; [rewrite optimal_binning_empty in H; discriminate|].
  destruct (optimal_binning_nonempty self (u :: data) lo_arg hi_arg)
    as (mx & mn & Emx & Emn & _ & _ & _ & Er & Eq); [discriminate|].
  rewrite Eq in H. clear Eq.
  apply binning_of_range_Return in H.
  destruct H as (hi & lo & st & Ehi & Elo & Hr & Hs & -> & ->).
  destruct (resolve_limits_spec self lo_arg hi_arg (_n_x (summary (u :: data))))
    as (Elo' & Ehi' & _).
  rewrite Elo' in Elo. rewrite Ehi' in Ehi.
  inversion Elo; inversion Ehi; subst lo hi. clear Elo Ehi.
  exists mx, mn, st.
  unfold search_min_width, search_max_width. rewrite Er.
  split; [assumption|]. split; [assumption|]. split; [assumption|].
  split; [assumption|]. split; [reflexivity|]. split; [reflexivity|].
  unfold sweep_of_range in Hs.
  pose proof (f_equal fst Hs) as Hst. cbn [fst] in Hst.
  split; [rewrite <- Hst; apply sweep_frames_ok|].
  split; [rewrite <- Hst; apply sweep_widths_ok, Qpower_10_pos|].
  split; [rewrite <- Hst; apply sweep_lengths_ok|].
  split.
  { rewrite <- Hst.
    pose proof (sweep_scalars_kept (u :: data) (_n_x (summary (u :: data)))
                  (_mean_x (summary (u :: data))
                   / inject_Z (_n_x (summary (u :: data)))) mn mx
                  (default_min_n_bin lo_arg)
                  (default_max_n_bin hi_arg (_n_x (summary (u :: data))))
                  (min_bin_width_of (mx - mn)
                     (default_max_n_bin hi_arg (_n_x (summary (u :: data)))))
                  (max_bin_width_of (mx - mn) (default_min_n_bin lo_arg))
                  (resolve_limits self lo_arg hi_arg (_n_x (summary (u :: data)))))
      as Hk.
    specialize (Hk (sweep_fuel
                      (floor_log10 ((mx - mn) / inject_Z
                         (default_max_n_bin hi_arg (_n_x (summary (u :: data))))))
                      (ceil_log10 ((mx - mn) / inject_Z (default_min_n_bin lo_arg))))).
    exact Hk. }
  split.
  { unfold max_bin_width_of, min_bin_width_of in *.
    eapply sweep_exits_on_guard. exact Hs. }
  apply sweep_trace in Hs.
  destruct Hs as (k & _ & Hsq & Hw & Hall & _).
  exists k. cbn [sweep_start sequence bin_width] in *. auto.
Qed.

(** ** The limits given in the wrong order *)

(** The three assignments of lines 143-145 leave both limits as given. *)
Lemma reversed_limits_kept (self : Binning) (lo hi n_x : Z) :
  (hi < lo)%Z ->
  min_n_bin (resolve_limits self (Some lo) (Some hi) n_x) = Some lo
  /\ max_n_bin (resolve_limits self (Some lo) (Some hi) n_x) = Some hi.
Proof.
  intros _. destruct (resolve_limits_spec self (Some lo) (Some hi) n_x) as (H1 & H2 & _).
  auto.
Qed.

(** With the limits in the wrong order no width can be recorded. *)
Lemma reversed_limits_no_candidate (self : Binning) (data : list Q) (lo hi : Z)
    (s' : Binning) (n : Z) :
  (hi < lo)%Z ->
  optimal_binning self data (Some lo) (Some hi) = (s', Return n) ->
  n = 0%Z /\ list_n_bin s' = [] /\ min_n_bin s' = Some lo /\ max_n_bin s' = Some hi.
Proof.
  intros Hrev H. apply run_Return_facts in H. cbn zeta in H.
  destruct H as (mx & mn & st & _ & _ & _ & _ & -> & -> & Hf & _ & Hl & Hk & _).
  destruct (select_optimum_spec (self_of st)) as (_ & _ & -> & _ & -> & -> & _).
  destruct Hk as (-> & -> & _).
  destruct (resolve_limits_spec self (Some lo) (Some hi) (_n_x (summary data)))
    as (-> & -> & _).
  cbn [default_min_n_bin default_max_n_bin] in *.
  assert (E : list_n_bin (self_of st) = []).
  { unfold frames_ok in Hf. destruct Hf as [|x y l l' (_ & _ & _ & Hlim & _) _];
      [reflexivity|lia]. }
  destruct Hl as (_ & Hn & _ & Hc). rewrite E in Hn. cbn in Hn.
  rewrite <- Hn in Hc. auto.
Qed.

(** Claim C1. The claim: when the limits are given as [min_n_bin = 10],
    [max_n_bin = 2], they are swapped to [2] and [10] and the recorded bin
    counts lie in [2, 10]. The code, on the fifteen-value sample: the run
    returns without an exception, but the object keeps [min_n_bin = 10]
    and [max_n_bin = 2] (the third assignment of the swap restores
    [max_n_bin]), so no width passes the filter and nothing is recorded. *)
Theorem reversed_limits_are_not_swapped :
  snd (optimal_binning new_Binning sample15 (Some 10%Z) (Some 2%Z)) = Return 0%Z
  /\ min_n_bin (fst (optimal_binning new_Binning sample15 (Some 10%Z) (Some 2%Z)))
     = Some 10%Z
  /\ max_n_bin (fst (optimal_binning new_Binning sample15 (Some 10%Z) (Some 2%Z)))
     = Some 2%Z
  /\ list_n_bin (fst (optimal_binning new_Binning sample15 (Some 10%Z) (Some 2%Z)))
     = [].
Proof. vm_compute. repeat split. Qed.

(** ** The accessors *)

(** Without an optimum the accessors return their sentinels. *)
Lemma accessors_without_optimum (self : Binning) :
  optimal_position self = None ->
  get_optimal_boundary self = Return None
  /\ get_optimal_nbin self = Return 0%Z
  /\ get_optimal_width self = Return None.
Proof.
  intros H. unfold get_optimal_boundary, get_optimal_nbin, get_optimal_width.
  rewrite H. auto.
Qed.

(** A run that records nothing leaves the stored position as it was; on an
    object that had none, the accessors return their sentinels. *)
Lemma empty_run_keeps_position (self : Binning) (data : list Q)
    (lo_arg hi_arg : option Z) (s' : Binning) :
  optimal_binning self data lo_arg hi_arg = (s', Return 0%Z) ->
  optimal_position s' = optimal_position self
  /\ list_bin_boundary s' = [] /\ list_n_bin s' = [] /\ bin_width_candidate s' = [].
Proof.
  intros H. apply run_Return_facts in H. cbn zeta in H.
  destruct H as (mx & mn & st & _ & _ & _ & _ & -> & Hn & _ & _ & Hl & Hk & _).
  destruct Hl as (Hw & Hb & Hd & Hc).
  rewrite <- Hn in Hc.
  assert (E : list_criterion (self_of st) = [])
    by (destruct (list_criterion (self_of st)); [reflexivity|cbn in Hc; lia]).
  rewrite E in *. cbn in Hw, Hb, Hd.
  destruct (select_optimum_spec (self_of st)) as (_ & _ & _ & _ & _ & _ & Hs).
  rewrite E in Hs. rewrite Hs.
  destruct Hk as (_ & _ & _ & ->).
  destruct (resolve_limits_spec self lo_arg hi_arg (_n_x (summary data)))
    as (_ & _ & _ & _ & _ & _ & _ & ->).
  repeat split.
  - destruct (list_bin_boundary (self_of st)); [reflexivity|discriminate].
  - destruct (list_n_bin (self_of st)); [reflexivity|discriminate].
  - destruct (bin_width_candidate (self_of st)); [reflexivity|discriminate].
Qed.

(** Claim C2. The claim: whenever no optimum exists, also after a run that
    records nothing and follows a successful run on the same object, the
    accessors return their sentinels ([None], [0], [None]). The code, on
    the fifteen-value sample run first with the default limits (three
    candidates) and then with limits 10 and 2 (no candidate): the lists are
    emptied but [optimal_position] keeps the value of the first run, and
    each accessor raises [IndexError]. *)
Theorem stale_position_after_empty_rerun :
  snd run1 = Return 3%Z
  /\ snd run2 = Return 0%Z
  /\ list_bin_boundary (fst run2) = []
  /\ optimal_position (fst run2) = Some 0%nat
  /\ get_optimal_boundary (fst run2) = Raise IndexError
  /\ get_optimal_nbin (fst run2) = Raise IndexError
  /\ get_optimal_width (fst run2) = Raise IndexError.
Proof. vm_compute. repeat split. Qed.

(** ** The single-bin layout *)

(** Claim C3. The claim: with exactly one boundary [bin_frequency] raises
    nothing and returns one bin holding the whole sample. The code: the
    branch [n_bin == 1] calls [numpy.len], which does not exist, so the
    call raises [AttributeError] for every sample. *)
Theorem single_boundary_raises (data : list Q) (b : float) :
  bin_frequency data [b] = Raise NumpyLenError.
Proof. reflexivity. Qed.

(** Claim C4. The claim: for every non-empty sequence of boundaries the
    frame returned has frequencies that add up to the sample size. The
    code: for the sample [5] and the single boundary [NINF] no frame is
    returned at all (the defect of the branch [n_bin == 1], as in C3);
    with two boundaries or more the frequencies do add up
    ([bin_frequency_sum], [recorded_frames_sum]). *)
Theorem single_boundary_returns_no_frame :
  ~ exists d, bin_frequency [5] [NINF] = Return d
              /\ Zsum (FREQUENCY d) = Z.of_nat (length [5]).
Proof. intros (d & H & _). discriminate H. Qed.

(** Every frame recorded by a run that returns counts each value of the
    sample exactly once. *)
Lemma recorded_frames_sum (self : Binning) (data : list Q)
    (lo_arg hi_arg : option Z) (s' : Binning) (n : Z) :
  optimal_binning self data lo_arg hi_arg = (s', Return n) ->
  Forall (fun d => Zsum (FREQUENCY d) = Z.of_nat (length data))
         (list_bin_boundary s').
Proof.
  intros H. apply run_Return_facts in H. cbn zeta in H.
  destruct H as (mx & mn & st & _ & _ & _ & _ & -> & _ & Hf & _).
  destruct (select_optimum_spec (self_of st)) as (_ & _ & _ & -> & _).
  unfold frames_ok in Hf.
  induction Hf as [|x d l l' (_ & _ & Hsum & _) _ IH]; constructor; assumption.
Qed.

(** ** The cycle of widths *)

(** Claim C5, as stated, fails: from the width 1 the third width of the
    cycle is 5/2, not 4. *)
Lemma third_width_is_not_four : ~ Forall2 Qeq (cycle_widths 1) claimed_cycle.
Proof.
  intros H. unfold cycle_widths, claimed_cycle in H. cbn in H.
  inversion H as [|? ? ? ? _ H1]; subst.
  inversion H1 as [|? ? ? ? _ H2]; subst.
  inversion H2 as [|? ? ? ? E _]; subst.
  discriminate E.
Qed.

Lemma width_after_div_mod (k : nat) (w : Q) :
  fst (width_after k 0%Z w) = Z.of_nat (k mod 4)
  /\ snd (width_after k 0%Z w) == nice (k mod 4) * 10 ^ Z.of_nat (k / 4) * w.
Proof.
  rewrite (Nat.div_mod_eq k 4) at 1 3.
  apply width_after_closed. apply Nat.mod_upper_bound. discriminate.
Qed.

(** Claim C5, amended. The loop starts at [min_bin_width] with the counter
    at 0; each pass multiplies the width by 1.25 when the counter is 1 and
    by 2 otherwise, and increments the counter modulo 4; so the widths of
    a cycle are 1, 2, 2.5, 5 and 10 times the first one, and after [k]
    passes the width is [nice (k mod 4) * 10^(k / 4)] times
    [min_bin_width]. *)
Theorem width_progression_is_nice
    (data : list Q) (n_x : Z) (mean_x min_x max_x : Q) (lo hi : Z)
    (self : Binning) (w : Q) (st : LoopState) (k : nat) :
  (sequence (sweep_start self w) = 0%Z /\ bin_width (sweep_start self w) = w)
  /\ match sweep_body data n_x mean_x min_x max_x lo hi st with
     | Return st' =>
         sequence st' = (if (sequence st + 1 =? 4)%Z then 0 else sequence st + 1)%Z
         /\ bin_width st' = (if (sequence st =? 1)%Z
                             then (125 # 100) * bin_width st
                             else 2 * bin_width st)
     | Raise _ => True
     end
  /\ Forall2 Qeq (cycle_widths w) [w; 2 * w; (5 # 2) * w; 5 * w; 10 * w]
  /\ fst (width_after 4 0%Z w) = 0%Z
  /\ fst (width_after k 0%Z w) = Z.of_nat (k mod 4)
  /\ snd (width_after k 0%Z w) == nice (k mod 4) * 10 ^ Z.of_nat (k / 4) * w.
Proof.
  split; [split; reflexivity|]. split.
  { destruct (sweep_body data n_x mean_x min_x max_x lo hi st) as [st'|e] eqn:E;
      [|exact I].
    apply sweep_body_width in E. exact E. }
  split.
  { unfold cycle_widths. cbn.
    repeat (constructor; [ring|]). constructor. }
  split; [reflexivity|].
  apply width_after_div_mod.
Qed.

(** ** The optimum *)

(** The order of floats, as far as the scan needs it. *)
Lemma float_ltb_irrefl (a : float) : float_ltb a a = false.
Proof.
  destruct a as [|q|]; cbn; try reflexivity.
  destruct (Qltb_spec q q) as [H|_]; [|reflexivity].
  exfalso. apply (Qlt_irrefl q H).
Qed.







(** On finite criteria the two scans are one. *)
Lemma select_lowest_scan (l : list Q) (i : nat) (c : float) (p : option nat) :
  select_lowest l i c p = scan_lowest (map Fin l) i c p.
Proof.
  revert i c p; induction l as [|v l IH]; intros i c p; cbn; [reflexivity|].
  rewrite !IH. reflexivity.
Qed.

(** [select_optimum] stores what the scan selects, and nothing if the
    scan selects nothing. *)
Lemma select_optimum_scan (self : Binning) :
  match snd (scan_lowest (map Fin (list_criterion self)) 0 PINF None) with
  | Some p =>
      optimal_position (select_optimum self) = Some p
      /\ optimal_criterion (select_optimum self)
         = fst (scan_lowest (map Fin (list_criterion self)) 0 PINF None)
  | None => select_optimum self = self
  end.
Proof.
  unfold select_optimum. rewrite select_lowest_scan.
  destruct (scan_lowest (map Fin (list_criterion self)) 0 PINF None) as [c [p|]];
    cbn; auto.
Qed.



(** ** The two fatal errors *)

Lemma optimal_binning_Raise_nonempty (self : Binning) (data : list Q)
    (lo_arg hi_arg : option Z) (s' : Binning) (e : exn) :
  data <> [] ->
  optimal_binning self data lo_arg hi_arg = (s', Raise e) ->
  exists mx mn,
    In mx data /\ In mn data /\ Forall (fun u => mn <= u <= mx) data
    /\ ((e = DegenerateRangeError /\ ~ 0 < mx - mn
         /\ s' = resolve_limits self lo_arg hi_arg (_n_x (summary data)))
        \/ (0 < mx - mn /\ raised_in_search e)).
Proof.
  intros Hne H.
  destruct (optimal_binning_nonempty self data lo_arg hi_arg Hne)
    as (mx & mn & _ & _ & Imx & Imn & Hall & _ & Eq).
  rewrite Eq in H. apply binning_of_range_Raise in H.
  exists mx, mn. auto.
Qed.

(** [EmptyInputError] is raised exactly on the empty sample. *)
Lemma empty_error_iff (self : Binning) (data : list Q) (lo_arg hi_arg : option Z) :
  snd (optimal_binning self data lo_arg hi_arg) = Raise EmptyInputError
  <-> data = [].
Proof.
  split.
  - intros H. destruct data as [|u data]; [reflexivity|exfalso].
    destruct (optimal_binning self (u :: data) lo_arg hi_arg) as [s' o] eqn:E.
    cbn in H. subst o.
    apply optimal_binning_Raise_nonempty in E; [|discriminate].
    destruct E as (mx & mn & _ & _ & _ & [(E & _)|(_ & E)]).
    + discriminate E.
    + apply raised_in_search_not_degenerate in E. destruct E as [_ E]. congruence.
  - intros ->. reflexivity.
Qed.

(** [DegenerateRangeError] is raised exactly on a non-empty sample whose
    values are all equal. *)
Lemma degenerate_error_iff (self : Binning) (data : list Q)
    (lo_arg hi_arg : option Z) :
  snd (optimal_binning self data lo_arg hi_arg) = Raise DegenerateRangeError
  <-> data <> [] /\ (forall u v, In u data -> In v data -> u == v).
Proof.
  split.
  - intros H. destruct data as [|u0 data]; [discriminate H|].
    split; [discriminate|].
    destruct (optimal_binning self (u0 :: data) lo_arg hi_arg) as [s' o] eqn:E.
    cbn in H. subst o.
    apply optimal_binning_Raise_nonempty in E; [|discriminate].
    destruct E as (mx & mn & _ & _ & Hall & [(_ & Hr & _)|(_ & E)]).
    + intros u v Hu Hv. rewrite Forall_forall in Hall.
      destruct (Hall u Hu), (Hall v Hv).
      assert (mx <= mn) by (apply Qnot_lt_le in Hr; lra).
      lra.
    + apply raised_in_search_not_degenerate in E. destruct E as [E _]. congruence.
  - intros [Hne Heq].
    destruct (optimal_binning_nonempty self data lo_arg hi_arg Hne)
      as (mx & mn & _ & _ & Imx & Imn & _ & _ & Eq).
    rewrite Eq, binning_of_range_degenerate; [reflexivity|].
    pose proof (Heq mx mn Imx Imn). lra.
Qed.

Lemma log10_quotient_check_None (range_x : Q) (n : Z) :
  0 < range_x -> (0 < n)%Z -> log10_quotient_check range_x n = None.
Proof.
  intros Hr Hn. unfold log10_quotient_check.
  destruct (Z.eqb_spec n 0); [lia|].
  destruct (Qltb_spec (range_x / inject_Z n) 0) as [H|H]; [exfalso|reflexivity].
  assert (Hq : 0 < inject_Z n).
  { change 0 with (inject_Z 0). rewrite <- Zlt_Qlt. exact Hn. }
  assert (0 < range_x / inject_Z n).
  { apply Qlt_shift_div_l; [assumption|]. lra. }
  lra.
Qed.

(** Claim C7. The claim: [EmptyInputError] exactly on the empty sample,
    [DegenerateRangeError] exactly on a sample of equal values, and no
    exception otherwise under valid limits. The first two parts hold
    ([empty_error_iff], [degenerate_error_iff]). The third fails in the
    code: on the sample [1, 2] with [min_n_bin = 1] and [max_n_bin = 2] the
    width 1 gives a single bin, and the frequency count for it raises
    [AttributeError] (the defect of the branch [n_bin == 1], as in C3). *)
Theorem single_bin_candidate_raises :
  snd (optimal_binning new_Binning [1; 2] (Some 1%Z) (Some 2%Z))
  = Raise NumpyLenError
  /\ list_n_bin (fst (optimal_binning new_Binning [1; 2] (Some 1%Z) (Some 2%Z)))
     = [2%Z].
Proof. vm_compute. split; reflexivity. Qed.

(** Claim C8, as stated, fails: on a fresh object and the sample [0, 0]
    the run raises [DegenerateRangeError], and the object is not what it
    was: both limits have been assigned. *)
Lemma degenerate_run_overwrites_limits :
  snd (optimal_binning new_Binning [0; 0] None None) = Raise DegenerateRangeError
  /\ fst (optimal_binning new_Binning [0; 0] None None) <> new_Binning
  /\ min_n_bin (fst (optimal_binning new_Binning [0; 0] None None)) = Some 2%Z
  /\ max_n_bin (fst (optimal_binning new_Binning [0; 0] None None)) = Some 1%Z.
Proof.
  split; [vm_compute; reflexivity|]. split.
  - intros E. apply (f_equal min_n_bin) in E. vm_compute in E. discriminate E.
  - vm_compute. split; reflexivity.
Qed.

(** Claim C8, amended. A run that raises one of the two fatal errors has
    done no candidate work: the four lists and the optimum are unchanged.
    On [EmptyInputError] the whole object is unchanged. On
    [DegenerateRangeError] the two limits have been overwritten with the
    limits resolved for this call. *)
Theorem fatal_error_state (self : Binning) (data : list Q)
    (lo_arg hi_arg : option Z) (s' : Binning) (e : exn) :
  optimal_binning self data lo_arg hi_arg = (s', Raise e) ->
  e = EmptyInputError \/ e = DegenerateRangeError ->
  bin_width_candidate s' = bin_width_candidate self
  /\ list_criterion s' = list_criterion self
  /\ list_n_bin s' = list_n_bin self
  /\ list_bin_boundary s' = list_bin_boundary self
  /\ optimal_criterion s' = optimal_criterion self
  /\ optimal_position s' = optimal_position self
  /\ ((e = EmptyInputError /\ data = [] /\ s' = self)
      \/ (e = DegenerateRangeError /\ data <> []
          /\ min_n_bin s' = Some (default_min_n_bin lo_arg)
          /\ max_n_bin s' = Some (default_max_n_bin hi_arg
                                                     (Z.of_nat (length data))))).
Proof.
  intros H He. destruct data as [|u data].
  - rewrite optimal_binning_empty in H. inversion H; subst.
    repeat (split; [reflexivity|]). left. auto.
  - apply optimal_binning_Raise_nonempty in H; [|discriminate].
    destruct H as (mx & mn & _ & _ & _ & [(-> & _ & ->)|(_ & E)]).
    + destruct (resolve_limits_spec self lo_arg hi_arg (_n_x (summary (u :: data))))
        as (Hlo & Hhi & H1 & H2 & H3 & H4 & H5 & H6).
      repeat (split; [assumption|]). right.
      rewrite <- summary_n_x.
      split; [reflexivity|]. split; [discriminate|]. auto.
    + apply raised_in_search_not_degenerate in E. destruct E, He; congruence.
Qed.

(** ** The recorded widths *)

(** Claim C9. After a run that returns, the recorded widths are strictly
    increasing and lie between [min_bin_width] and [max_bin_width], the two
    powers of ten derived from the range of the sample and the resolved
    limits; and the loop made exactly [k] passes, where width number [k]
    of the progression is the first one above [max_bin_width]. *)
Theorem widths_increase_within_range (self : Binning) (data : list Q)
    (lo_arg hi_arg : option Z) (s' : Binning) (n : Z) :
  optimal_binning self data lo_arg hi_arg = (s', Return n) ->
  let minw := search_min_width data hi_arg in
  let maxw := search_max_width data lo_arg in
  StronglySorted Qlt (bin_width_candidate s')
  /\ Forall (fun w => minw <= w <= maxw) (bin_width_candidate s')
  /\ exists mx mn st k,
       _max_x (summary data) = Fin mx /\ _min_x (summary data) = Fin mn
       /\ sweep_of_range
            (resolve_limits self lo_arg hi_arg (_n_x (summary data)))
            data (_n_x (summary data))
            (_mean_x (summary data) / inject_Z (_n_x (summary data))) mn mx
            (default_min_n_bin lo_arg)
            (default_max_n_bin hi_arg (_n_x (summary data)))
          = (st, None)
       /\ s' = select_optimum (self_of st)
       /\ bin_width st = snd (width_after k 0%Z minw)
       /\ maxw < snd (width_after k 0%Z minw)
       /\ forall j, (j < k)%nat -> snd (width_after j 0%Z minw) <= maxw.
Proof.
  intros H. apply run_Return_facts in H. cbn zeta in *.
  destruct H as (mx & mn & st & Emx & Emn & _ & Hs & -> & _ & _ & Hw & _ & _
                 & Hexit & k & _ & Hk & Hall).
  destruct (select_optimum_spec (self_of st)) as (-> & _).
  destruct Hw as (Hsorted & Hrange & _).
  split; [assumption|]. split.
  - eapply Forall_impl; [|exact Hrange]. cbn. intros w [? _]. assumption.
  - exists mx, mn, st, k. rewrite <- Hk. auto 10.
Qed.

(** ** Bin counts and rows *)

(** The agreement holds in every state an object can reach: it holds on a
    fresh object and every call of [optimal_binning] preserves it, whether
    the call returns or raises. *)
Lemma rows_agree_new : rows_agree new_Binning.
Proof. constructor. Qed.

Lemma frames_ok_rows_agree (data : list Q) (lo hi : Z) (self : Binning) :
  frames_ok data lo hi self -> rows_agree self.
Proof.
  unfold frames_ok, rows_agree. intros H. eapply Forall2_impl; [|exact H].
  cbn. intros nb d (? & ? & _). auto.
Qed.

Lemma rows_agree_preserved (self : Binning) (data : list Q)
    (lo_arg hi_arg : option Z) :
  rows_agree self -> rows_agree (fst (optimal_binning self data lo_arg hi_arg)).
Proof.
  intros Hself. destruct data as [|u data]; [exact Hself|].
  destruct (optimal_binning_nonempty self (u :: data) lo_arg hi_arg)
    as (mx & mn & _ & _ & _ & _ & _ & _ & ->); [discriminate|].
  assert (H1 : rows_agree (resolve_limits self lo_arg hi_arg
                             (_n_x (summary (u :: data))))).
  { unfold rows_agree.
    destruct (resolve_limits_spec self lo_arg hi_arg (_n_x (summary (u :: data))))
      as (_ & _ & _ & _ & -> & -> & _).
    exact Hself. }
  unfold binning_of_range.
  destruct (Qltb 0 (mx - mn)); [|exact H1].
  destruct (max_n_bin _) as [hi|]; [|exact H1].
  destruct (min_n_bin _) as [lo|]; [|exact H1].
  destruct (log10_quotient_check (mx - mn) hi); [exact H1|].
  destruct (log10_quotient_check (mx - mn) lo); [exact H1|].
  destruct (sweep_of_range _ _ _ _ _ _ _ _) as [st pending] eqn:Es.
  assert (Hst : rows_agree (self_of st)).
  { apply (frames_ok_rows_agree (u :: data) lo hi).
    unfold sweep_of_range in Es.
    pose proof (f_equal fst Es) as E. cbn [fst] in E. rewrite <- E.
    apply sweep_frames_ok. }
  destruct pending as [e|]; cbn [fst]; [exact Hst|].
  unfold rows_agree.
  destruct (select_optimum_spec (self_of st)) as (_ & _ & -> & -> & _).
  exact Hst.
Qed.



(** ** Instances on the fifteen-value sample *)


Lemma fatal_error_state_witness :
  optimal_binning new_Binning [0; 0] None None
  = (resolve_limits new_Binning None None 2, Raise DegenerateRangeError)
  /\ (DegenerateRangeError = EmptyInputError
      \/ DegenerateRangeError = DegenerateRangeError)
  /\ min_n_bin (resolve_limits new_Binning None None 2) = Some 2%Z.
Proof.
  assert (H : optimal_binning new_Binning [0; 0] None None
              = (resolve_limits new_Binning None None 2,
                 Raise DegenerateRangeError)) by (vm_compute; reflexivity).
  assert (He : DegenerateRangeError = EmptyInputError
               \/ DegenerateRangeError = DegenerateRangeError)
    by (right; reflexivity).
  split; [exact H|]. split; [exact He|].
  destruct (fatal_error_state new_Binning [0; 0] None None _ _ H He)
    as (_ & _ & _ & _ & _ & _ & [(E & _)|(_ & _ & Hlo & _)]).
  - discriminate E.
  - exact Hlo.
Defined.

Lemma widths_increase_within_range_witness :
  optimal_binning new_Binning sample15 None None = (fst run1, Return 3%Z)
  /\ StronglySorted Qlt (bin_width_candidate (fst run1))
  /\ Forall (fun w => search_min_width sample15 None <= w
                       <= search_max_width sample15 None)
            (bin_width_candidate (fst run1)).
Proof.
  assert (H : optimal_binning new_Binning sample15 None None
              = (fst run1, Return 3%Z)) by (vm_compute; reflexivity).
  split; [exact H|].
  destruct (widths_increase_within_range new_Binning sample15 None None
              (fst run1) 3%Z H) as (Hs & Hr & _).
  split; assumption.
Defined.


(** * Further properties of the code *)

(** ** The bins are left-closed, right-open intervals *)

Lemma count_value_bin_of (b : list float) (freq : list Z) (u : Q) :
  count_value b freq u = incr_at (bin_of b u) freq.
Proof.
  unfold count_value, bin_of. destruct (find_bin u (tl b) 0); reflexivity.
Qed.

Lemma bin_of_lt (b : list float) (u : Q) :
  (1 <= length b)%nat -> (bin_of b u < length b)%nat.
Proof.
  intros Hb. unfold bin_of.
  destruct (find_bin u (tl b) 0) as [i|] eqn:E; [|lia].
  apply find_bin_range in E. destruct b; cbn in *; lia.
Qed.

Lemma nth_incr_at (i j : nat) (freq : list Z) :
  (j < length freq)%nat ->
  nth i (incr_at j freq) 0%Z
  = (nth i freq 0 + if (i =? j)%nat then 1 else 0)%Z.
Proof.
  revert i j; induction freq as [|f fs IH]; intros i j Hj; cbn in Hj; [lia|].
  destruct j as [|j], i as [|i]; cbn; try lia.
  rewrite IH by lia. reflexivity.
Qed.

Lemma count_if_cons (f : Q -> bool) (u : Q) (data : list Q) :
  count_if f (u :: data) = ((if f u then 1 else 0) + count_if f data)%Z.
Proof.
  unfold count_if. cbn. destruct (f u); cbn [length]; lia.
Qed.

Lemma count_if_ext (f g : Q -> bool) (data : list Q) :
  (forall u, f u = g u) -> count_if f data = count_if g data.
Proof.
  intros H. induction data as [|u data IH]; [reflexivity|].
  rewrite !count_if_cons, IH, H. reflexivity.
Qed.

Lemma count_if_pos (f : Q -> bool) (u : Q) (data : list Q) :
  In u data -> f u = true -> (1 <= count_if f data)%Z.
Proof.
  intros Hin Hf. unfold count_if.
  assert (H : In u (filter f data)) by (apply filter_In; auto).
  destruct (filter f data); [contradiction|cbn; lia].
Qed.

(** Each frequency is the number of values that [bin_of] sends to its
    position. *)
Lemma nth_count_all (b : list float) (data : list Q) (freq : list Z) (i : nat) :
  (1 <= length b)%nat -> length freq = length b ->
  nth i (fold_left (count_value b) data freq) 0%Z
  = (nth i freq 0 + count_if (fun u => (bin_of b u =? i)%nat) data)%Z.
Proof.
  intros Hb. revert freq; induction data as [|u data IH]; intros freq Hlen.
  - cbn. unfold count_if. cbn. lia.
  - cbn [fold_left]. rewrite IH by (rewrite count_value_length; assumption).
    rewrite count_value_bin_of, nth_incr_at
      by (rewrite Hlen; apply bin_of_lt; assumption).
    rewrite count_if_cons, (Nat.eqb_sym i). lia.
Qed.

Lemma float_ltb_le_trans (u : Q) (a b : float) :
  float_ltb (Fin u) a = true -> float_ltb b a = false ->
  float_ltb (Fin u) b = true.
Proof.
  destruct a as [|x|], b as [|y|]; cbn; try congruence; try reflexivity.
  destruct (Qltb_spec u x), (Qltb_spec y x), (Qltb_spec u y);
    try congruence; intros _ _. exfalso. lra.
Qed.

Lemma nondecreasing_nth (l : list float) (j1 j2 : nat) (d : float) :
  nondecreasing l -> (j1 <= j2 < length l)%nat ->
  float_ltb (nth j2 l d) (nth j1 l d) = false.
Proof.
  intros Hs. revert j1 j2. induction Hs as [|a l Hs IH Ha]; intros j1 j2 Hj.
  - cbn in Hj. lia.
  - destruct j1 as [|j1], j2 as [|j2]; cbn in *; try lia.
    + apply float_ltb_irrefl.
    + rewrite Forall_forall in Ha. apply Ha, nth_In. lia.
    + apply IH. lia.
Qed.

(** What the scan of lines 71-75 finds. *)
Lemma find_bin_Some (u : Q) (U : list float) (k m : nat) :
  find_bin u U k = Some m ->
  exists i, m = (k + i)%nat /\ (i < length U)%nat
            /\ float_ltb (Fin u) (nth i U PINF) = true
            /\ forall j, (j < i)%nat -> float_ltb (Fin u) (nth j U PINF) = false.
Proof.
  revert k; induction U as [|a U IH]; intros k H; cbn [find_bin] in H.
  - discriminate.
  - destruct (float_ltb (Fin u) a) eqn:E.
    + inversion H; subst. exists 0%nat. cbn.
      split; [lia|]. split; [lia|]. split; [assumption|]. intros; lia.
    + apply IH in H. destruct H as (i & -> & Hi & Hlt & Hall).
      exists (S i). cbn [nth length].
      split; [lia|]. split; [lia|]. split; [assumption|].
      intros [|j] Hj; [assumption|]. apply Hall. lia.
Qed.

Lemma find_bin_None (u : Q) (U : list float) (k : nat) :
  find_bin u U k = None ->
  forall j, (j < length U)%nat -> float_ltb (Fin u) (nth j U PINF) = false.
Proof.
  revert k; induction U as [|a U IH]; intros k H j Hj; cbn in Hj; [lia|].
  cbn [find_bin] in H. destruct (float_ltb (Fin u) a) eqn:E; [discriminate|].
  destruct j as [|j]; cbn [nth]; [assumption|]. eapply IH; [eassumption|lia].
Qed.

Section Rows.

Variable b0 : float.
Variable U : list float.
Hypothesis U_nonempty : (1 <= length U)%nat.

Let b := b0 :: U.
Let d (freq : list Z) := mkDataFrame b (tl b ++ [PINF]) freq.

Lemma row_upper (freq : list Z) (i : nat) :
  nth i (UPPER_OPEN (d freq)) PINF = nth i U PINF.
Proof.
  cbn. destruct (Nat.lt_ge_cases i (length U)) as [H|H].
  - apply app_nth1. assumption.
  - rewrite (nth_overflow U) by assumption.
    rewrite app_nth2 by assumption.
    destruct (i - length U)%nat as [|[|m]]; reflexivity.
Qed.

Lemma row_lower (freq : list Z) (i : nat) :
  (i < length U)%nat ->
  nth (S i) (LOWER_CLOSE (d freq)) NINF = nth i U PINF.
Proof. intros H. cbn. apply nth_indep. assumption. Qed.

(** The value is in the row it is counted in. *)
Lemma in_row_bin_of (freq : list Z) (u : Q) :
  in_row (d freq) (bin_of b u) u = true.
Proof.
  unfold in_row. rewrite row_upper. unfold bin_of. cbn [tl b length].
  destruct (find_bin u U 0) as [m|] eqn:E.
  - apply find_bin_Some in E. destruct E as (i & -> & Hi & Hlt & Hall).
    cbn [Nat.add]. rewrite Hlt, andb_true_r.
    destruct i as [|i]; [reflexivity|].
    rewrite row_lower by lia. rewrite Hall by lia. reflexivity.
  - pose proof (find_bin_None u U 0 E) as Hall.
    replace (S (length U) - 1)%nat with (length U) by lia.
    rewrite (nth_overflow U) by lia.
    change (float_ltb (Fin u) PINF) with true. rewrite andb_true_r.
    destruct (length U) as [|n] eqn:En; [lia|].
    rewrite row_lower by lia. rewrite Hall by lia. reflexivity.
Qed.

Hypothesis U_sorted : nondecreasing U.

(** With sorted limits a value is in one row only. *)
Lemma in_row_unique_lt (freq : list Z) (u : Q) (i m : nat) :
  (i < m)%nat -> (m < length b)%nat ->
  in_row (d freq) i u = true -> in_row (d freq) m u = true -> False.
Proof.
  intros Him Hm Hi Hmr. unfold in_row in Hi, Hmr.
  rewrite row_upper in Hi. apply andb_prop in Hi. destruct Hi as [_ Hup].
  apply andb_prop in Hmr. destruct Hmr as [Hlow _].
  destruct m as [|m]; [lia|]. cbn [Nat.eqb orb] in Hlow.
  cbn [b length] in Hm.
  rewrite row_lower in Hlow by lia.
  apply negb_true_iff in Hlow.
  pose proof (nondecreasing_nth U i m PINF U_sorted ltac:(lia)) as Hs.
  rewrite (float_ltb_le_trans u _ _ Hup Hs) in Hlow. discriminate.
Qed.

Lemma bin_of_in_row (freq : list Z) (u : Q) (i : nat) :
  (i < length b)%nat ->
  (bin_of b u =? i)%nat = in_row (d freq) i u.
Proof.
  intros Hi.
  pose proof (in_row_bin_of freq u) as Hm.
  pose proof (bin_of_lt b u ltac:(cbn; lia)) as Hlt.
  destruct (Nat.eqb_spec (bin_of b u) i) as [E|E].
  - rewrite <- E. symmetry. assumption.
  - destruct (in_row (d freq) i u) eqn:Er; [exfalso|reflexivity].
    destruct (Nat.lt_gt_cases (bin_of b u) i) as [H _]. specialize (H E).
    destruct H as [H|H].
    + exact (in_row_unique_lt freq u _ _ H Hi Hm Er).
    + exact (in_row_unique_lt freq u _ _ H Hlt Er Hm).
Qed.

End Rows.

Lemma in_row_freq_indep (l up : list float) (f1 f2 : list Z) (i : nat) (u : Q) :
  in_row (mkDataFrame l up f1) i u = in_row (mkDataFrame l up f2) i u.
Proof. reflexivity. Qed.

Lemma nth_repeat_0 (n i : nat) : nth i (repeat 0%Z n) 0%Z = 0%Z.
Proof.
  revert i; induction n as [|n IH]; intros [|i]; cbn; auto.
Qed.

(** With two boundaries or more, in non-decreasing order from the second
    one on, [bin_frequency] returns the given boundaries as lower limits,
    the next boundary (or plus infinity) as upper limit, and as frequency
    of each row the number of values of the sample in
    [lower limit, upper limit); the lower limit of the first row is not
    looked at. *)
Theorem bin_frequency_counts_intervals (data : list Q) (b : list float) :
  (2 <= length b)%nat -> nondecreasing (tl b) ->
  exists d,
    bin_frequency data b = Return d
    /\ LOWER_CLOSE d = b
    /\ UPPER_OPEN d = tl b ++ [PINF]
    /\ length (FREQUENCY d) = length b
    /\ forall i, (i < length b)%nat ->
                 nth i (FREQUENCY d) 0%Z = count_if (in_row d i) data.
Proof.
  intros Hn Hs. unfold bin_frequency.
  destruct (Nat.eqb_spec (length b) 0) as [E|_]; [lia|].
  destruct (Nat.leb_spec 2 (length b)) as [_|E]; [|lia].
  eexists. split; [reflexivity|]. cbn [LOWER_CLOSE UPPER_OPEN FREQUENCY].
  split; [reflexivity|]. split; [reflexivity|]. split.
  - rewrite count_all_length. apply repeat_length.
  - intros i Hi.
    rewrite nth_count_all by (rewrite ?repeat_length; lia).
    rewrite nth_repeat_0. cbn [Z.add].
    destruct b as [|b0 U]; [cbn in Hn; lia|]. cbn [tl] in *.
    apply count_if_ext. intros u.
    apply (bin_of_in_row b0 U); [cbn in Hn; lia|assumption|assumption].
Qed.

(** ** Every row is computed from its width *)

Lemma Forall4_snoc {A B C D : Type} (P : A -> B -> C -> D -> Prop)
    la lb lc ld (a : A) (b : B) (c : C) (d : D) :
  Forall4 P la lb lc ld -> P a b c d ->
  Forall4 P (la ++ [a]) (lb ++ [b]) (lc ++ [c]) (ld ++ [d]).
Proof.
  intros H Hp. induction H as [|a' b' c' d' la lb lc ld Hp' _ IH]; cbn.
  - constructor; [assumption|constructor].
  - constructor; assumption.
Qed.

Lemma Forall4_nth {A B C D : Type} (P : A -> B -> C -> D -> Prop)
    la lb lc ld (i : nat) (a : A) (b : B) (c : C) (d : D) :
  Forall4 P la lb lc ld ->
  nth_error la i = Some a -> nth_error lb i = Some b ->
  nth_error lc i = Some c -> nth_error ld i = Some d ->
  P a b c d.
Proof.
  intros H. revert i.
  induction H as [|a' b' c' d' la lb lc ld Hp _ IH]; intros [|i]; cbn;
    try discriminate.
  - intros Ea Eb Ec Ed. inversion Ea; inversion Eb; inversion Ec; inversion Ed.
    subst. assumption.
  - apply IH.
Qed.

Lemma Forall4_impl {A B C D : Type} (P R : A -> B -> C -> D -> Prop)
    la lb lc ld :
  (forall a b c d, P a b c d -> R a b c d) ->
  Forall4 P la lb lc ld -> Forall4 R la lb lc ld.
Proof. intros Hi H. induction H; constructor; auto. Qed.

Section RowsOfTheSweep.

Variable data : list Q.
Variables (n_x : Z) (mean_x min_x max_x : Q).
Variables (lo hi : Z).
Variables (min_bin_width max_bin_width : Q).

Let record := record_candidate data n_x mean_x min_x max_x lo hi.
Let body := sweep_body data n_x mean_x min_x max_x lo hi.
Let run := sweep data n_x mean_x min_x max_x lo hi max_bin_width.

(** A pass either leaves the lists alone or appends the candidate of the
    width it was given. *)
Lemma record_candidate_row (st st' : LoopState) :
  0 < bin_width st ->
  record st = Return st' ->
  self_of st' = self_of st
  \/ exists c nb d,
       candidate_of data n_x mean_x min_x max_x (bin_width st) c nb d
       /\ self_of st' = append_candidate (self_of st) (bin_width st) c nb d.
Proof.
  intros Hpos. unfold record, record_candidate.
  destruct ((lo <=? _) && (_ <=? hi))%Z;
    [|intros E; inversion E; left; reflexivity].
  fold (low_x_of mean_x min_x (bin_width st)).
  destruct (make_boundary _ _ _) as [bnd|e] eqn:Eb; cbn [bind]; [|discriminate].
  destruct (bin_frequency data bnd) as [d|e] eqn:Ef; cbn [bind]; [|discriminate].
  intros E; inversion E; subst; clear E. right. cbn [self_of].
  do 3 eexists. split; [|reflexivity].
  split; [assumption|]. split; [reflexivity|]. split; [|reflexivity].
  exists bnd. auto.
Qed.

Lemma rows_computed_step (st st' : LoopState) :
  widths_ok min_bin_width max_bin_width st
  /\ rows_computed data n_x mean_x min_x max_x (self_of st) ->
  bin_width st <= max_bin_width -> body st = Return st' ->
  widths_ok min_bin_width max_bin_width st'
  /\ rows_computed data n_x mean_x min_x max_x (self_of st').
Proof.
  intros [Hw Hr] Hg Hb.
  split; [eapply widths_ok_step; eassumption|].
  apply sweep_body_Return in Hb. destruct Hb as (st1 & H1 & ->).
  cbn [advance self_of].
  destruct Hw as (_ & _ & _ & Hpos).
  apply (record_candidate_row st st1 Hpos) in H1.
  destruct H1 as [->|(c & nb & d & Hc & ->)]; [assumption|].
  unfold rows_computed in *.
  cbn [append_candidate bin_width_candidate list_criterion list_n_bin
       list_bin_boundary].
  apply Forall4_snoc; assumption.
Qed.

Variable self0 : Binning.
Hypothesis min_pos : 0 < min_bin_width.

Lemma sweep_rows_computed (fuel : nat) :
  rows_computed data n_x mean_x min_x max_x
    (self_of (fst (run fuel (sweep_start (reset_lists self0) min_bin_width)))).
Proof.
  apply (sweep_preserves data n_x mean_x min_x max_x lo hi max_bin_width
           (fun st => widths_ok min_bin_width max_bin_width st
                      /\ rows_computed data n_x mean_x min_x max_x (self_of st))).
  - intros st st' H Hg Hb. eapply rows_computed_step; eassumption.
  - split.
    + repeat split; cbn; try constructor; try assumption. apply Qle_refl.
    + constructor.
Qed.

End RowsOfTheSweep.

(** The facts about a sample that the rows depend on. *)
Lemma sample_extremes (data : list Q) :
  data <> [] ->
  _max_x (summary data) = Fin (sample_max data)
  /\ _min_x (summary data) = Fin (sample_min data)
  /\ In (sample_max data) data /\ In (sample_min data) data
  /\ Forall (fun u => sample_min data <= u <= sample_max data) data
  /\ sample_range data = sample_max data - sample_min data.
Proof.
  intros Hne.
  destruct (summary_extremes data Hne) as (mx & mn & Emx & Emn & Imx & Imn & Hall).
  unfold sample_max, sample_min, sample_range. rewrite Emx, Emn. auto 10.
Qed.

(** After a run that returns: the sample has two different values, and
    every row of the object is the candidate of its width. *)
Lemma run_rows_computed (self : Binning) (data : list Q)
    (lo_arg hi_arg : option Z) (s' : Binning) (n : Z) :
  optimal_binning self data lo_arg hi_arg = (s', Return n) ->
  data <> []
  /\ sample_min data < sample_max data
  /\ rows_computed data (_n_x (summary data)) (sample_mean data)
                   (sample_min data) (sample_max data) s'.
Proof.
  intros H.
  assert (Hne : data <> [])
    by (intros ->; rewrite optimal_binning_empty in H; discriminate).
  destruct (sample_extremes data Hne) as (Emx & Emn & _ & _ & _ & _).
  apply run_Return_facts in H. cbn zeta in H.
  destruct H as (mx & mn & st & Emx' & Emn' & Hr & Hs & -> & _).
  rewrite Emx in Emx'. rewrite Emn in Emn'.
  inversion Emx'; inversion Emn'; subst mx mn.
  split; [assumption|]. split; [lra|].
  unfold rows_computed.
  destruct (select_optimum_spec (self_of st)) as (-> & -> & -> & -> & _).
  unfold sweep_of_range in Hs.
  pose proof (f_equal fst Hs) as E. cbn [fst] in E. rewrite <- E.
  apply sweep_rows_computed. apply Qpower_10_pos.
Qed.

(** ** The boundaries of a candidate *)

Lemma Qmult_lt_div (a b c : Q) : 0 < c -> a < b / c -> a * c < b.
Proof.
  intros Hc H.
  setoid_replace b with (b / c * c) by (field; lra).
  apply Qmult_lt_r; assumption.
Qed.

Lemma Qmult_le_div (a b c : Q) : 0 < c -> b / c <= a -> b <= a * c.
Proof.
  intros Hc H.
  setoid_replace b with (b / c * c) by (field; lra).
  apply Qmult_le_r; assumption.
Qed.

Section Candidate.

Variables (mean_x min_x max_x w : Q).
Hypothesis w_pos : 0 < w.

Let middle := middle_of mean_x w.
Let n_left := n_bin_left_of mean_x min_x w.
Let n_right := n_bin_right_of mean_x max_x w.
Let low := low_x_of mean_x min_x w.

(** The first finite boundary is a multiple of the width. *)
Lemma low_x_multiple :
  low == w * inject_Z (numpy_round (mean_x / w) - n_left + 1).
Proof.
  unfold low, low_x_of, middle_of. fold n_left.
  unfold Z.sub. rewrite !inject_Z_plus, !inject_Z_opp.
  change (inject_Z 1) with 1. ring.
Qed.

(** The minimum of the sample is below the first finite boundary. *)
Lemma low_x_above_min : min_x < low.
Proof.
  unfold low, low_x_of. fold middle n_left.
  pose proof (Qceiling_lt ((middle - min_x) / w)) as H.
  change (Qceiling ((middle - min_x) / w)) with n_left in H.
  apply (Qmult_lt_div _ _ _ w_pos) in H. lra.
Qed.

(** The maximum of the sample is not below the last finite boundary. *)
Lemma last_boundary_below_max :
  low + w * inject_Z (n_bin_of mean_x min_x max_x w - 2) < max_x.
Proof.
  unfold low, low_x_of, n_bin_of. fold middle n_left n_right.
  pose proof (Qceiling_lt ((max_x - middle) / w)) as H.
  change (Qceiling ((max_x - middle) / w)) with n_right in H.
  apply (Qmult_lt_div _ _ _ w_pos) in H.
  replace (n_left + n_right - 2)%Z with ((n_left - 1) + (n_right - 1))%Z by lia.
  rewrite inject_Z_plus. lra.
Qed.

End Candidate.

Lemma nth_map_seq {A : Type} (g : nat -> A) (m k : nat) (d : A) :
  (k < m)%nat -> nth k (map g (seq 0 m)) d = g k.
Proof.
  intros H. rewrite (nth_indep _ d (g 0%nat)) by (rewrite length_map, length_seq; lia).
  rewrite map_nth, seq_nth by lia. reflexivity.
Qed.

(** The array built at lines 173-179 for two bins or more: minus infinity,
    then [low_x], [low_x + bw], [low_x + 2 bw], ... *)
Lemma make_boundary_shape (nb : Z) (low w : Q) (bnd : list float) :
  make_boundary nb low w = Return bnd -> (2 <= nb)%Z ->
  exists rest,
    bnd = NINF :: rest
    /\ length rest = Z.to_nat (nb - 1)
    /\ forall k d, (k < length rest)%nat ->
                   exists q, nth k rest d = Fin q
                             /\ q == low + w * inject_Z (Z.of_nat k).
Proof.
  intros H Hnb. unfold make_boundary in H.
  destruct (Z.ltb_spec nb 0); [lia|].
  destruct (Z.eqb_spec nb 0); [lia|].
  destruct (Z.gtb_spec nb 2).
  - inversion H; subst. eexists. split; [reflexivity|].
    unfold arange. rewrite map_map, length_map, length_seq.
    split; [reflexivity|]. intros k d Hk.
    rewrite nth_map_seq by assumption.
    eexists. split; reflexivity.
  - destruct (Z.eqb_spec nb 2); [|lia]. inversion H; subst.
    exists [Fin low]. split; [reflexivity|]. split; [reflexivity|].
    intros [|k] d Hk; cbn in Hk; [|lia].
    exists low. split; [reflexivity|]. cbn. ring.
Qed.

Lemma find_bin_all_false (u : Q) (U : list float) (k : nat) :
  (forall j, (j < length U)%nat -> float_ltb (Fin u) (nth j U PINF) = false) ->
  find_bin u U k = None.
Proof.
  revert k; induction U as [|a U IH]; intros k H; cbn [find_bin]; [reflexivity|].
  pose proof (H 0%nat ltac:(cbn; lia)) as H0. cbn [nth] in H0. rewrite H0.
  apply IH. intros j Hj. apply (H (S j)). cbn. lia.
Qed.

Lemma bin_frequency_Return_eq (data : list Q) (bnd : list float) (d : DataFrame) :
  bin_frequency data bnd = Return d ->
  (2 <= length bnd)%nat
  /\ d = mkDataFrame bnd (tl bnd ++ [PINF])
                     (fold_left (count_value bnd) data (repeat 0%Z (length bnd))).
Proof.
  unfold bin_frequency.
  destruct (Nat.eqb_spec (length bnd) 0); [discriminate|].
  destruct (Nat.leb_spec 2 (length bnd)); [|discriminate].
  intros E; inversion E. auto.
Qed.

(** What a candidate's frame looks like. *)
Lemma candidate_frame (data : list Q) (n_x : Z) (mean_x min_x max_x : Q)
    (w c : Q) (nb : Z) (d : DataFrame) :
  candidate_of data n_x mean_x min_x max_x w c nb d ->
  exists rest,
    (2 <= nb)%Z
    /\ length rest = Z.to_nat (nb - 1)
    /\ (forall k dflt, (k < length rest)%nat ->
          exists q, nth k rest dflt = Fin q
                    /\ q == low_x_of mean_x min_x w + w * inject_Z (Z.of_nat k))
    /\ d = mkDataFrame (NINF :: rest) (rest ++ [PINF])
             (fold_left (count_value (NINF :: rest)) data
                        (repeat 0%Z (S (length rest)))).
Proof.
  intros (Hw & -> & (bnd & Eb & Ef) & _).
  apply bin_frequency_Return_eq in Ef. destruct Ef as [H2 ->].
  pose proof (make_boundary_Return _ _ _ _ Eb) as [_ Hlen].
  assert (Hnb : (2 <= n_bin_of mean_x min_x max_x w)%Z) by lia.
  destruct (make_boundary_shape _ _ _ _ Eb Hnb) as (rest & -> & Hr & Hk).
  exists rest. auto.
Qed.

Lemma Forall4_outer {A B C D : Type} (P : A -> B -> C -> D -> Prop)
    la lb lc ld :
  Forall4 P la lb lc ld ->
  Forall2 (fun a d => exists b c, P a b c d) la ld.
Proof. intros H. induction H; constructor; eauto. Qed.

Lemma Forall4_last {A B C D : Type} (P : A -> B -> C -> D -> Prop)
    la lb lc ld :
  Forall4 P la lb lc ld ->
  Forall (fun d => exists a b c, P a b c d) ld.
Proof. intros H. induction H; constructor; eauto. Qed.

Lemma StronglySorted_of_nth {A : Type} (R : A -> A -> Prop) (l : list A) (d : A) :
  (forall j1 j2, (j1 < j2 < length l)%nat -> R (nth j1 l d) (nth j2 l d)) ->
  StronglySorted R l.
Proof.
  induction l as [|a l IH]; intros H; constructor.
  - apply IH. intros j1 j2 Hj. apply (H (S j1) (S j2)). cbn. lia.
  - apply Forall_forall. intros x Hx.
    destruct (In_nth l x d Hx) as (j & Hj & <-).
    apply (H 0%nat (S j)). cbn. lia.
Qed.

(** The finite boundaries of a candidate increase. *)
Lemma candidate_boundaries_sorted (low w : Q) (rest : list float) :
  0 < w ->
  (forall k dflt, (k < length rest)%nat ->
     exists q, nth k rest dflt = Fin q /\ q == low + w * inject_Z (Z.of_nat k)) ->
  nondecreasing rest.
Proof.
  intros Hw Hk. apply (StronglySorted_of_nth _ rest PINF).
  intros j1 j2 Hj.
  destruct (Hk j1 PINF ltac:(lia)) as (q1 & -> & E1).
  destruct (Hk j2 PINF ltac:(lia)) as (q2 & -> & E2).
  rewrite float_ltb_Fin.
  destruct (Qltb_spec q2 q1) as [H|_]; [exfalso|reflexivity].
  assert (Hz : inject_Z (Z.of_nat j1) <= inject_Z (Z.of_nat j2))
    by (rewrite <- Zle_Qle; lia).
  assert (w * inject_Z (Z.of_nat j1) <= w * inject_Z (Z.of_nat j2))
    by (apply Qmult_le_l; assumption).
  lra.
Qed.

(** The frequencies of a candidate's frame are interval counts, and the
    two outer rows hold the minimum and the maximum of the sample. *)
Lemma candidate_counts (data : list Q) (n_x : Z) (mean_x min_x max_x : Q)
    (w c : Q) (nb : Z) (d : DataFrame) :
  candidate_of data n_x mean_x min_x max_x w c nb d ->
  (forall i, (i < n_rows d)%nat ->
             nth i (FREQUENCY d) 0%Z = count_if (in_row d i) data)
  /\ (In min_x data -> (1 <= nth 0 (FREQUENCY d) 0)%Z)
  /\ (In max_x data -> (1 <= nth (n_rows d - 1) (FREQUENCY d) 0)%Z).
Proof.
  intros Hc. pose proof Hc as (Hw & Enb & _ & _).
  destruct (candidate_frame _ _ _ _ _ _ _ _ _ Hc) as (rest & Hnb & Hlen & Hk & ->).
  unfold n_rows. cbn [LOWER_CLOSE FREQUENCY length].
  assert (Hr : (1 <= length rest)%nat) by lia.
  pose proof (candidate_boundaries_sorted _ _ _ Hw Hk) as Hs.
  split; [|split].
  - intros i Hi.
    rewrite nth_count_all by (cbn [length]; rewrite ?repeat_length; lia).
    rewrite nth_repeat_0. cbn [Z.add].
    apply count_if_ext. intros u.
    apply (bin_of_in_row NINF rest Hr Hs); cbn; lia.
  - intros Hin.
    rewrite nth_count_all by (cbn [length]; rewrite ?repeat_length; lia).
    rewrite nth_repeat_0. cbn [Z.add].
    apply (count_if_pos _ min_x); [assumption|].
    apply Nat.eqb_eq. unfold bin_of. cbn [tl].
    destruct rest as [|a rest']; [cbn in Hr; lia|].
    destruct (Hk 0%nat PINF ltac:(cbn; lia)) as (q & Eq & Hq). cbn [nth] in Eq.
    subst a. cbn [find_bin]. rewrite float_ltb_Fin.
    pose proof (low_x_above_min mean_x min_x w Hw) as Hlow.
    destruct (Qltb_spec min_x q) as [_|C]; [reflexivity|exfalso].
    apply C. rewrite Hq. cbn [Z.of_nat]. change (inject_Z 0) with 0. lra.
  - intros Hin.
    rewrite nth_count_all by (cbn [length]; rewrite ?repeat_length; lia).
    rewrite nth_repeat_0. cbn [Z.add].
    apply (count_if_pos _ max_x); [assumption|].
    apply Nat.eqb_eq. unfold bin_of. cbn [tl length].
    rewrite find_bin_all_false; [lia|].
    intros j Hj. destruct (Hk j PINF Hj) as (q & -> & Hq).
    rewrite float_ltb_Fin.
    destruct (Qltb_spec max_x q) as [C|_]; [exfalso|reflexivity].
    pose proof (last_boundary_below_max mean_x min_x max_x w Hw) as Hlast.
    rewrite <- Enb in Hlast.
    assert (Hz : inject_Z (Z.of_nat j) <= inject_Z (nb - 2))
      by (rewrite <- Zle_Qle; lia).
    assert (w * inject_Z (Z.of_nat j) <= w * inject_Z (nb - 2))
      by (apply Qmult_le_l; assumption).
    lra.
Qed.

Lemma Qsum_squares_nonneg (m : Q) (freq : list Z) :
  0 <= Qsum (map (fun f => (inject_Z f - m) ^ 2) freq).
Proof.
  induction freq as [|f freq IH]; cbn [map Qsum fold_right].
  - apply Qle_refl.
  - pose proof (Qsqr_nonneg (inject_Z f - m)). unfold Qsum in IH. lra.
Qed.

(** The variance term is not negative, so the criterion is at most twice
    the mean frequency over the squared width. *)
Lemma shimazaki_criterion_le (n_x n_bin : Z) (w : Q) (freq : list Z) :
  0 < w -> (0 < n_bin)%Z ->
  shimazaki_criterion n_x n_bin w freq
  <= 2 * (inject_Z n_x / inject_Z n_bin) / w / w.
Proof.
  intros Hw Hn. unfold shimazaki_criterion.
  set (m := inject_Z n_x / inject_Z n_bin).
  pose proof (Qsum_squares_nonneg m freq) as Hs.
  assert (Hq : 0 < inject_Z n_bin).
  { change 0 with (inject_Z 0). rewrite <- Zlt_Qlt. exact Hn. }
  assert (Hv : 0 <= Qsum (map (fun f => (inject_Z f - m) ^ 2) freq) / inject_Z n_bin).
  { apply Qle_shift_div_l; [assumption|]. lra. }
  assert (Hi : 0 <= / w) by (apply Qinv_le_0_compat; lra).
  unfold Qdiv.
  apply Qmult_le_compat_r; [|assumption].
  apply Qmult_le_compat_r; [|assumption].
  unfold Qdiv in Hv. lra.
Qed.

(** ** The frames a run records *)

(** After a run that returns, each frequency of each recorded frame is the
    number of values of the sample that lie in the interval of its row,
    [lower limit, upper limit). *)
Theorem recorded_frequencies_count_intervals (self : Binning) (data : list Q)
    (lo_arg hi_arg : option Z) (s' : Binning) (n : Z) :
  optimal_binning self data lo_arg hi_arg = (s', Return n) ->
  Forall (fun d => forall i, (i < n_rows d)%nat ->
                     nth i (FREQUENCY d) 0%Z = count_if (in_row d i) data)
         (list_bin_boundary s').
Proof.
  intros H. apply run_rows_computed in H. destruct H as (_ & _ & Hrows).
  apply Forall4_last in Hrows.
  eapply Forall_impl; [|exact Hrows]. cbn.
  intros d (w & c & nb & Hc). apply (candidate_counts _ _ _ _ _ _ _ _ _ Hc).
Qed.

(** After a run that returns, the lower limits of each recorded frame are
    minus infinity followed by consecutive integer multiples of the width
    recorded with the frame. *)
Theorem recorded_boundaries_aligned (self : Binning) (data : list Q)
    (lo_arg hi_arg : option Z) (s' : Binning) (n : Z) :
  optimal_binning self data lo_arg hi_arg = (s', Return n) ->
  Forall2 (fun w d =>
             0 < w
             /\ exists (m : Z) (rest : list float),
                  LOWER_CLOSE d = NINF :: rest
                  /\ forall k dflt, (k < length rest)%nat ->
                       exists q, nth k rest dflt = Fin q
                                 /\ q == w * inject_Z (m + Z.of_nat k))
          (bin_width_candidate s') (list_bin_boundary s').
Proof.
  intros H. apply run_rows_computed in H. destruct H as (_ & _ & Hrows).
  apply Forall4_outer in Hrows.
  eapply Forall2_impl; [|exact Hrows]. cbn.
  intros w d (c & nb & Hc). pose proof Hc as (Hw & _).
  split; [assumption|].
  destruct (candidate_frame _ _ _ _ _ _ _ _ _ Hc) as (rest & _ & _ & Hk & ->).
  exists (numpy_round (sample_mean data / w)
          - n_bin_left_of (sample_mean data) (sample_min data) w + 1)%Z, rest.
  split; [reflexivity|].
  intros k dflt Hlt. destruct (Hk k dflt Hlt) as (q & Eq & Hq).
  exists q. split; [assumption|].
  rewrite Hq, (low_x_multiple (sample_mean data) (sample_min data) w).
  rewrite (inject_Z_plus _ (Z.of_nat k)). ring.
Qed.

(** After a run that returns, the four lists describe the same candidates
    row by row: the bin count is the one computed for the width and is the
    number of rows of the frame, and the criterion is the
    Shimazaki-Shinomoto value of the frame's frequencies for that width,
    which is at most [2 N / n_bin / width^2]. *)
Theorem recorded_rows_consistent (self : Binning) (data : list Q)
    (lo_arg hi_arg : option Z) (s' : Binning) (n : Z) :
  optimal_binning self data lo_arg hi_arg = (s', Return n) ->
  Forall4 (fun w c nb d =>
             nb = n_bin_of (sample_mean data) (sample_min data)
                           (sample_max data) w
             /\ nb = Z.of_nat (n_rows d)
             /\ c = shimazaki_criterion (Z.of_nat (length data)) nb w
                                        (FREQUENCY d)
             /\ c <= 2 * (inject_Z (Z.of_nat (length data)) / inject_Z nb)
                     / w / w)
          (bin_width_candidate s') (list_criterion s')
          (list_n_bin s') (list_bin_boundary s').
Proof.
  intros H. apply run_rows_computed in H. destruct H as (_ & _ & Hrows).
  unfold rows_computed in Hrows. rewrite summary_n_x in Hrows.
  eapply Forall4_impl; [|exact Hrows]. cbn.
  intros w c nb d Hc. pose proof Hc as (Hw & Enb & _ & Ec).
  destruct (candidate_frame _ _ _ _ _ _ _ _ _ Hc) as (rest & Hnb & Hlen & _ & Ed).
  split; [assumption|]. split.
  - rewrite Ed. unfold n_rows. cbn [LOWER_CLOSE length]. lia.
  - split; [assumption|]. rewrite Ec.
    apply shimazaki_criterion_le; [assumption|lia].
Qed.

(** ** The widths a run tries and records *)

Lemma widths_tried_step (data : list Q) (n_x : Z) (mean_x min_x max_x : Q)
    (lo hi : Z) (minw maxw : Q) (st st' : LoopState) :
  widths_tried minw maxw st -> bin_width st <= maxw ->
  sweep_body data n_x mean_x min_x max_x lo hi st = Return st' ->
  widths_tried minw maxw st'.
Proof.
  intros (k & Hs & Hw & Hg & Hlen & Hall) Hguard Hb.
  pose proof (sweep_body_width _ _ _ _ _ _ _ _ _ Hb) as [Es Ew].
  apply sweep_body_Return in Hb. destruct Hb as (st1 & Hr & ->).
  exists (S k). rewrite width_after_succ. cbn [fst snd]. rewrite <- Hs, <- Hw.
  split; [exact Es|]. split; [exact Ew|]. split.
  { intros j Hj. destruct (Nat.eq_dec j k) as [->|Hne].
    - rewrite <- Hw. assumption.
    - apply Hg. lia. }
  cbn [advance self_of].
  apply record_candidate_Return in Hr.
  destruct Hr as [[_ ->]|(d & c & _ & _ & _ & _ & _ & ->)];
    cbn [self_of append_candidate bin_width_candidate].
  - split; [lia|]. eapply Forall_impl; [|exact Hall]. cbn.
    intros w (j & Hj & E). exists j. split; [lia|assumption].
  - split; [rewrite length_app; cbn; lia|].
    apply Forall_app. split.
    + eapply Forall_impl; [|exact Hall]. cbn.
      intros w (j & Hj & E). exists j. split; [lia|assumption].
    + constructor; [|constructor]. exists k. split; [lia|assumption].
Qed.

Lemma sweep_widths_tried (data : list Q) (n_x : Z) (mean_x min_x max_x : Q)
    (lo hi : Z) (minw maxw : Q) (self : Binning) (fuel : nat) :
  widths_tried minw maxw
    (fst (sweep data n_x mean_x min_x max_x lo hi maxw fuel
                (sweep_start (reset_lists self) minw))).
Proof.
  apply (sweep_preserves data n_x mean_x min_x max_x lo hi maxw
           (widths_tried minw maxw)).
  - intros st st' H Hg Hb. eapply widths_tried_step; eassumption.
  - exists 0%nat. cbn. repeat split; auto; try constructor. intros; lia.
Qed.

(** No more than [widths_in_range a b] widths pass the guard [<= 10^b]
    from [10^a] on. *)
Lemma passes_bounded (a b : Z) (k : nat) :
  (forall j, (j < k)%nat -> snd (width_after j 0%Z (10 ^ a)) <= 10 ^ b) ->
  (k <= widths_in_range a b)%nat.
Proof.
  intros Hall. unfold widths_in_range.
  destruct (Nat.le_gt_cases k (Z.to_nat (4 * (b - a) + 1))) as [H|H];
    [assumption|exfalso].
  pose proof (Qpower_10_pos b) as Hpos.
  destruct (Z.lt_ge_cases b a) as [Hba|Hab].
  - specialize (Hall 0%nat ltac:(lia)). cbn in Hall.
    pose proof (Qpower_lt_compat_l 10 b a Hba ltac:(reflexivity)). lra.
  - specialize (Hall (4 * Z.to_nat (b - a) + 1)%nat ltac:(lia)).
    destruct (width_after_closed (Z.to_nat (b - a)) 1 (10 ^ a)) as [_ Hc]; [lia|].
    rewrite Hc in Hall. cbn [nice] in Hall.
    rewrite Z2Nat.id in Hall by lia.
    assert (E : 10 ^ (b - a) * 10 ^ a == 10 ^ b).
    { rewrite <- Qpower_plus by (intros E; discriminate E).
      replace (b - a + a)%Z with b by lia. reflexivity. }
    rewrite <- Qmult_assoc, E in Hall. lra.
Qed.

Lemma run_widths_tried (self : Binning) (data : list Q)
    (lo_arg hi_arg : option Z) (s' : Binning) (n : Z) :
  optimal_binning self data lo_arg hi_arg = (s', Return n) ->
  n = Z.of_nat (length (bin_width_candidate s'))
  /\ exists k : nat,
       (k <= widths_in_range (search_min_exp data hi_arg)
                             (search_max_exp data lo_arg))%nat
       /\ (length (bin_width_candidate s') <= k)%nat
       /\ Forall (fun w => exists j,
                     (j < k)%nat
                     /\ w = snd (width_after j 0%Z
                                   (10 ^ search_min_exp data hi_arg)))
                 (bin_width_candidate s').
Proof.
  intros H. apply run_Return_facts in H. cbn zeta in H.
  destruct H as (mx & mn & st & Emx & Emn & _ & Hs & -> & -> & _ & _ & Hl & _).
  destruct (select_optimum_spec (self_of st)) as (-> & _).
  destruct Hl as (Hlw & _ & _ & Hc). split; [rewrite Hlw; exact Hc|].
  assert (Er : sample_range data = mx - mn)
    by (unfold sample_range; rewrite Emx, Emn; reflexivity).
  unfold sweep_of_range in Hs.
  pose proof (sweep_widths_tried data (_n_x (summary data))
                (_mean_x (summary data) / inject_Z (_n_x (summary data)))
                mn mx (default_min_n_bin lo_arg)
                (default_max_n_bin hi_arg (_n_x (summary data)))
                (min_bin_width_of (mx - mn)
                   (default_max_n_bin hi_arg (_n_x (summary data))))
                (max_bin_width_of (mx - mn) (default_min_n_bin lo_arg))
                (resolve_limits self lo_arg hi_arg (_n_x (summary data)))
                (sweep_fuel
                   (floor_log10 ((mx - mn) / inject_Z
                      (default_max_n_bin hi_arg (_n_x (summary data)))))
                   (ceil_log10 ((mx - mn) / inject_Z (default_min_n_bin lo_arg)))))
    as Ht.
  rewrite Hs in Ht. cbn [fst] in Ht.
  destruct Ht as (k & _ & _ & Hg & Hlen & Hall).
  unfold search_min_exp, search_max_exp. rewrite Er.
  exists k. split; [|split; assumption].
  apply passes_bounded. exact Hg.
Qed.

(** After a run that returns, every recorded width is 1, 2, 2.5 or 5 times
    a power of ten. *)
Theorem recorded_widths_are_nice (self : Binning) (data : list Q)
    (lo_arg hi_arg : option Z) (s' : Binning) (n : Z) :
  optimal_binning self data lo_arg hi_arg = (s', Return n) ->
  Forall (fun w => exists (r : nat) (e : Z), (r < 4)%nat /\ w == nice r * 10 ^ e)
         (bin_width_candidate s').
Proof.
  intros H. apply run_widths_tried in H. destruct H as (_ & k & _ & _ & Hall).
  eapply Forall_impl; [|exact Hall]. cbn. intros w (j & _ & ->).
  exists (j mod 4)%nat, (Z.of_nat (j / 4) + search_min_exp data hi_arg)%Z.
  split; [apply Nat.mod_upper_bound; discriminate|].
  destruct (width_after_div_mod j (10 ^ search_min_exp data hi_arg)) as [_ E].
  rewrite E, Qpower_plus by (intros C; discriminate C). ring.
Qed.

(** A run that returns has recorded at most [4 (b - a) + 1] candidates
    (none when [b < a]), where [10^a] and [10^b] are the two ends of the
    search range: that is the number of widths of the progression from
    [10^a] up to [10^b]. *)
Theorem candidates_at_most_widths_in_range (self : Binning) (data : list Q)
    (lo_arg hi_arg : option Z) (s' : Binning) (n : Z) :
  optimal_binning self data lo_arg hi_arg = (s', Return n) ->
  (0 <= n <= Z.of_nat (widths_in_range (search_min_exp data hi_arg)
                                       (search_max_exp data lo_arg)))%Z.
Proof.
  intros H. apply run_widths_tried in H.
  destruct H as (-> & k & Hk & Hlen & _). lia.
Qed.

(** ** A run does not depend on the object it is called on *)

Section TwoObjects.

Variable data : list Q.
Variables (n_x : Z) (mean_x min_x max_x : Q).
Variables (lo hi : Z).
Variable max_bin_width : Q.

Let body := sweep_body data n_x mean_x min_x max_x lo hi.
Let run := sweep data n_x mean_x min_x max_x lo hi max_bin_width.

Lemma sweep_body_same (st1 st2 : LoopState) :
  same_progress st1 st2 ->
  match body st1, body st2 with
  | Return a, Return b => same_progress a b
  | Raise e1, Raise e2 => e1 = e2
  | _, _ => False
  end.
Proof.
  intros (Hs & Hw & Hn & H1 & H2 & H3 & H4 & H5 & H6).
  unfold body, sweep_body, record_candidate. rewrite Hw.
  destruct ((lo <=? _) && (_ <=? hi))%Z; cbn [bind].
  - destruct (make_boundary _ _ _) as [bnd|e]; cbn [bind]; [|reflexivity].
    destruct (bin_frequency data bnd) as [d|e]; cbn [bind]; [|reflexivity].
    unfold same_progress.
    cbn [advance sequence bin_width n_candidates self_of append_candidate
         bin_width_candidate list_criterion list_n_bin list_bin_boundary
         min_n_bin max_n_bin].
    repeat split; congruence.
  - unfold same_progress.
    cbn [advance sequence bin_width n_candidates self_of].
    repeat split; congruence.
Qed.

Lemma sweep_same (fuel : nat) (st1 st2 : LoopState) :
  same_progress st1 st2 ->
  same_progress (fst (run fuel st1)) (fst (run fuel st2))
  /\ snd (run fuel st1) = snd (run fuel st2).
Proof.
  revert st1 st2; induction fuel as [|fuel IH]; intros st1 st2 H; cbn.
  - auto.
  - pose proof H as (_ & Hw & _). rewrite Hw.
    destruct (Qle_bool (bin_width st2) max_bin_width); [|auto].
    pose proof (sweep_body_same st1 st2 H) as Hb. fold body.
    destruct (body st1) as [a|e1], (body st2) as [b|e2]; try contradiction.
    + apply IH. assumption.
    + cbn. subst. auto.
Qed.

End TwoObjects.

Lemma optimal_binning_on_sample (self : Binning) (data : list Q)
    (lo_arg hi_arg : option Z) :
  data <> [] ->
  optimal_binning self data lo_arg hi_arg
  = binning_of_range (resolve_limits self lo_arg hi_arg (_n_x (summary data)))
                     data (_n_x (summary data)) (sample_mean data)
                     (sample_min data) (sample_max data).
Proof.
  intros Hne.
  destruct (optimal_binning_nonempty self data lo_arg hi_arg Hne)
    as (mx & mn & Emx & Emn & _ & _ & _ & _ & ->).
  unfold sample_min, sample_max. rewrite Emx, Emn. reflexivity.
Qed.

Lemma select_optimum_same (s1 s2 : Binning) :
  same_results s1 s2 ->
  same_results (select_optimum s1) (select_optimum s2)
  /\ (list_criterion s1 <> [] -> select_optimum s1 = select_optimum s2).
Proof.
  intros (H1 & H2 & H3 & H4 & H5 & H6).
  pose proof (select_optimum_spec s1) as (A1 & A2 & A3 & A4 & A5 & A6 & A7).
  pose proof (select_optimum_spec s2) as (B1 & B2 & B3 & B4 & B5 & B6 & _).
  split.
  - unfold same_results. rewrite A1, A2, A3, A4, A5, A6, B1, B2, B3, B4, B5, B6.
    repeat split; assumption.
  - intros Hne. unfold select_optimum. rewrite <- H2.
    destruct (select_lowest (list_criterion s1) 0 PINF None) as [c p] eqn:E.
    destruct p as [p|].
    + unfold set_optimum. rewrite H1, H2, H3, H4, H5, H6. reflexivity.
    + exfalso.
      pose proof (select_lowest_scanned (list_criterion s1) [] PINF None) as Hs.
      cbn [app length] in Hs. rewrite E in Hs. cbn [fst snd] in Hs.
      destruct Hs as [(Enil & _)|(i & v & Hp & _)];
        [left; auto|contradiction|discriminate].
Qed.

(** What a run returns or raises does not depend on the object it is
    called on, nor do the lists and the limits it leaves when it returns;
    and if the scan of lines 207-215 selects a candidate, the whole object
    it leaves is the same: nothing of an earlier run survives. *)
Theorem run_independent_of_object (self1 self2 : Binning) (data : list Q)
    (lo_arg hi_arg : option Z) :
  snd (optimal_binning self1 data lo_arg hi_arg)
  = snd (optimal_binning self2 data lo_arg hi_arg)
  /\ forall n,
       snd (optimal_binning self1 data lo_arg hi_arg) = Return n ->
       same_results (fst (optimal_binning self1 data lo_arg hi_arg))
                    (fst (optimal_binning self2 data lo_arg hi_arg))
       /\ (snd (scan_lowest
                  (map Fin (list_criterion
                              (fst (optimal_binning self1 data lo_arg hi_arg))))
                  0 PINF None) <> None ->
           fst (optimal_binning self1 data lo_arg hi_arg)
           = fst (optimal_binning self2 data lo_arg hi_arg)).
Proof.
  destruct data as [|u data].
  { split; [reflexivity|]. intros n H. discriminate H. }
  rewrite !optimal_binning_on_sample by discriminate.
  set (dt := u :: data).
  set (s1 := resolve_limits self1 lo_arg hi_arg (_n_x (summary dt))).
  set (s2 := resolve_limits self2 lo_arg hi_arg (_n_x (summary dt))).
  destruct (resolve_limits_spec self1 lo_arg hi_arg (_n_x (summary dt)))
    as (L1 & M1 & _).
  destruct (resolve_limits_spec self2 lo_arg hi_arg (_n_x (summary dt)))
    as (L2 & M2 & _).
  fold s1 in L1, M1. fold s2 in L2, M2.
  unfold binning_of_range. rewrite L1, M1, L2, M2.
  destruct (Qltb 0 (sample_max dt - sample_min dt));
    [|split; [reflexivity|intros n H; discriminate H]].
  destruct (log10_quotient_check _ (default_max_n_bin hi_arg (_n_x (summary dt))));
    [split; [reflexivity|intros n H; discriminate H]|].
  destruct (log10_quotient_check _ (default_min_n_bin lo_arg));
    [split; [reflexivity|intros n H; discriminate H]|].
  unfold sweep_of_range.
  match goal with
  | |- context [sweep ?d ?nx ?m ?mn ?mx ?l ?h ?w ?f (sweep_start (reset_lists s1) ?b)] =>
      pose proof (sweep_same d nx m mn mx l h w f
                    (sweep_start (reset_lists s1) b)
                    (sweep_start (reset_lists s2) b)) as Hsame;
      pose proof (sweep_lengths_ok d nx m mn mx l h b w s1 f) as Hl
  end.
  match type of Hsame with
  | _ -> same_progress (fst ?r1) (fst ?r2) /\ _ =>
      destruct r1 as [st1 p1], r2 as [st2 p2]
  end.
  cbn [fst snd] in Hsame, Hl.
  destruct Hsame as [Hp ->].
  { unfold same_progress. cbn. rewrite L1, M1, L2, M2. repeat split. }
  destruct p2 as [e|]; cbn [fst snd];
    [split; [reflexivity|intros n H; discriminate H]|].
  destruct Hp as (_ & _ & Hn & H1 & H2 & H3 & H4 & H5 & H6).
  rewrite Hn. split; [reflexivity|].
  intros n Hret. inversion Hret; subst n.
  destruct (select_optimum_same (self_of st1) (self_of st2)) as [Hres Heq].
  { unfold same_results. auto 10. }
  split; [assumption|].
  intros Hsel. apply Heq. intros Hnil. apply Hsel.
  destruct (select_optimum_spec (self_of st1)) as (_ & -> & _).
  rewrite Hnil. reflexivity.
Qed.

(** ** The optimum, through the accessors *)

Lemma Forall4_nth_ex {A B C D : Type} (P : A -> B -> C -> D -> Prop)
    la lb lc ld (i : nat) (b : B) :
  Forall4 P la lb lc ld -> nth_error lb i = Some b ->
  exists a c d, nth_error la i = Some a /\ nth_error lc i = Some c
                /\ nth_error ld i = Some d /\ P a b c d.
Proof.
  intros H. revert i.
  induction H as [|a' b' c' d' la lb lc ld Hp _ IH]; intros [|i]; cbn;
    try discriminate.
  - intros E; inversion E; subst. eauto 10.
  - apply IH.
Qed.

Lemma Forall2_nth_error {A B : Type} (R : A -> B -> Prop) (l : list A)
    (l' : list B) (i : nat) (a : A) (b : B) :
  Forall2 R l l' -> nth_error l i = Some a -> nth_error l' i = Some b -> R a b.
Proof.
  intros H. revert i. induction H as [|x y l l' Hr _ IH]; intros [|i]; cbn;
    try discriminate.
  - intros Ea Eb. inversion Ea; inversion Eb; subst. assumption.
  - apply IH.
Qed.

(** After a run that returns and whose criteria the scan of lines 207-215
    selects a position from, that position is the stored one, and the
    three accessors return the width, the bin count and the frame of that
    one row, the first one of minimal criterion; the width is in the
    search range, the bin
    count is within the limits and is the number of rows of the frame, the
    frequencies of the frame add up to the sample size, and the stored
    criterion is the one computed from them. *)
Theorem optimum_accessors_after_run (self : Binning) (data : list Q)
    (lo_arg hi_arg : option Z) (s' : Binning) (n : Z) (p : nat) :
  optimal_binning self data lo_arg hi_arg = (s', Return n) ->
  snd (scan_lowest (map Fin (list_criterion s')) 0 PINF None) = Some p ->
  exists w c nb d,
    optimal_position s' = Some p
    /\ optimal_criterion s' = Fin c
    /\ is_first_minimum (list_criterion s') p c
    /\ get_optimal_width s' = Return (Some w)
    /\ get_optimal_nbin s' = Return nb
    /\ get_optimal_boundary s' = Return (Some d)
    /\ search_min_width data hi_arg <= w <= search_max_width data lo_arg
    /\ (default_min_n_bin lo_arg <= nb
        <= default_max_n_bin hi_arg (_n_x (summary data)))%Z
    /\ nb = Z.of_nat (n_rows d)
    /\ Zsum (FREQUENCY d) = Z.of_nat (length data)
    /\ c = shimazaki_criterion (Z.of_nat (length data)) nb w (FREQUENCY d).
Proof.
  intros H Hsel.
  pose proof (run_rows_computed _ _ _ _ _ _ H) as (_ & _ & Hrows).
  apply run_Return_facts in H. cbn zeta in H.
  destruct H as (mx & mn & st & _ & _ & _ & _ & -> & -> & Hf & Hw & Hl & _).
  destruct (select_optimum_spec (self_of st)) as (Ew & Ec & En & Eb & _ & _ & Hs).
  unfold rows_computed in Hrows. rewrite Ew, Ec, En, Eb in Hrows.
  rewrite Ec in Hsel.
  pose proof (select_optimum_scan (self_of st)) as Hsc.
  rewrite Hsel in Hsc. destruct Hsc as [Hsp _].
  destruct (list_criterion (self_of st)) as [|c0 cs] eqn:E;
    [cbn in Hsel; discriminate Hsel|].
  destruct Hs as (p' & c & Hp & Hoc & Hmin).
  assert (p' = p) by congruence. subst p'.
  pose proof Hmin as [Hnth _].
  destruct (Forall4_nth_ex _ _ _ _ _ p c Hrows Hnth)
    as (w & nb & d & Hnw & Hnn & Hnd & Hcand).
  exists w, c, nb, d.
  split; [assumption|]. split; [assumption|].
  split; [rewrite Ec; assumption|].
  unfold get_optimal_width, get_optimal_nbin, get_optimal_boundary, getitem.
  rewrite Hp, Ew, En, Eb, Hnw, Hnn, Hnd. cbn [bind].
  do 3 (split; [reflexivity|]).
  destruct Hw as (_ & Hrange & _).
  rewrite Forall_forall in Hrange.
  destruct (Hrange w (nth_error_In _ _ Hnw)) as [Hwr _].
  split; [assumption|].
  unfold frames_ok in Hf.
  pose proof (Forall2_nth_error _ _ _ _ _ _ Hf Hnn Hnd)
    as (Hrows' & _ & Hsum & Hlim & _).
  split; [assumption|]. split; [assumption|]. split; [assumption|].
  destruct Hcand as (_ & _ & _ & ->). rewrite summary_n_x. reflexivity.
Qed.

(** A run that records nothing leaves the accessors as good as the
    object was: with no optimum stored before the call they return their
    sentinels, and with an optimum stored by an earlier run each of them
    raises [IndexError], as the lists are empty now. *)
Theorem accessors_after_empty_run (self : Binning) (data : list Q)
    (lo_arg hi_arg : option Z) (s' : Binning) :
  optimal_binning self data lo_arg hi_arg = (s', Return 0%Z) ->
  match optimal_position self with
  | None =>
      get_optimal_boundary s' = Return None
      /\ get_optimal_nbin s' = Return 0%Z
      /\ get_optimal_width s' = Return None
  | Some _ =>
      get_optimal_boundary s' = Raise IndexError
      /\ get_optimal_nbin s' = Raise IndexError
      /\ get_optimal_width s' = Raise IndexError
  end.
Proof.
  intros H. apply empty_run_keeps_position in H.
  destruct H as (Hp & Hb & Hn & Hw).
  unfold get_optimal_boundary, get_optimal_nbin, get_optimal_width, getitem.
  rewrite Hp, Hb, Hn, Hw.
  destruct (optimal_position self) as [[|p]|]; cbn; auto.
Qed.

(** ** The table of candidates *)

Lemma sort_values_sorted (l : list CriterionRow) :
  StronglySorted (fun x y => BIN_WIDTH x < BIN_WIDTH y) l -> sort_values l = l.
Proof.
  induction 1 as [|x l Hs IH Hx]; [reflexivity|].
  cbn [sort_values fold_right]. fold (sort_values l). rewrite IH.
  destruct l as [|y l']; [reflexivity|]. cbn [insert_row].
  inversion Hx as [|? ? Hxy _]; subst.
  destruct (Qle_bool_spec (BIN_WIDTH x) (BIN_WIDTH y)) as [_|C];
    [reflexivity|exfalso]. apply C. lra.
Qed.

Lemma zip_rows_widths (ws cs : list Q) (ns : list Z) :
  length ws = length cs -> length ns = length cs ->
  map BIN_WIDTH (zip_rows ws cs ns) = ws
  /\ map CRITERION (zip_rows ws cs ns) = cs
  /\ map N_BIN (zip_rows ws cs ns) = ns.
Proof.
  revert cs ns; induction ws as [|w ws IH]; intros [|c cs] [|n ns] H1 H2;
    cbn in *; try discriminate; auto.
  destruct (IH cs ns) as (-> & -> & ->); auto.
Qed.

Lemma StronglySorted_map_inv {A B : Type} (f : A -> B) (R : B -> B -> Prop)
    (l : list A) :
  StronglySorted R (map f l) -> StronglySorted (fun x y => R (f x) (f y)) l.
Proof.
  induction l as [|a l IH]; intros H; [constructor|].
  cbn in H. inversion H as [|? ? Hs Ha]; subst. constructor.
  - apply IH. assumption.
  - rewrite Forall_map in Ha. assumption.
Qed.

(** After a run that returns, [get_binning_criterion] returns one row per
    recorded candidate, in the order recorded (the widths were recorded in
    increasing order, so sorting moves nothing): its three columns are the
    three lists of the object, and the number of rows is the value the run
    returned. *)
Theorem binning_criterion_after_run (self : Binning) (data : list Q)
    (lo_arg hi_arg : option Z) (s' : Binning) (n : Z) :
  optimal_binning self data lo_arg hi_arg = (s', Return n) ->
  exists rows,
    get_binning_criterion s' = Return rows
    /\ map BIN_WIDTH rows = bin_width_candidate s'
    /\ map CRITERION rows = list_criterion s'
    /\ map N_BIN rows = list_n_bin s'
    /\ Z.of_nat (length rows) = n
    /\ StronglySorted (fun x y => BIN_WIDTH x < BIN_WIDTH y) rows.
Proof.
  intros H. apply run_Return_facts in H. cbn zeta in H.
  destruct H as (mx & mn & st & _ & _ & _ & _ & -> & -> & _ & Hw & Hl & _).
  destruct (select_optimum_spec (self_of st)) as (Ew & Ec & En & _).
  destruct Hl as (Hlw & Hln & _ & Hc). destruct Hw as (Hsorted & _).
  unfold get_binning_criterion. rewrite Ew, Ec, En, Hlw, Hln, !Nat.eqb_refl.
  cbn [andb].
  destruct (zip_rows_widths _ _ _ Hlw Hln) as (Zw & Zc & Zn).
  assert (Hs : StronglySorted (fun x y => BIN_WIDTH x < BIN_WIDTH y)
                 (zip_rows (bin_width_candidate (self_of st))
                           (list_criterion (self_of st))
                           (list_n_bin (self_of st)))).
  { apply StronglySorted_map_inv. rewrite Zw. assumption. }
  rewrite (sort_values_sorted _ Hs).
  eexists. split; [reflexivity|].
  split; [assumption|]. split; [assumption|]. split; [assumption|].
  split; [|assumption].
  rewrite <- (length_map CRITERION), Zc. symmetry. assumption.
Qed.

(** ** The bin count of a width *)

(** On a positive width the bins computed at lines 164-167 span the range
    of the sample, and overshoot it by less than two widths. *)
Theorem n_bin_spans_range (mean_x min_x max_x w : Q) :
  0 < w ->
  max_x - min_x <= inject_Z (n_bin_of mean_x min_x max_x w) * w
  /\ inject_Z (n_bin_of mean_x min_x max_x w) * w < max_x - min_x + 2 * w.
Proof.
  intros Hw. unfold n_bin_of, n_bin_left_of, n_bin_right_of.
  set (m := middle_of mean_x w).
  pose proof (Qle_ceiling ((m - min_x) / w)) as Hl1.
  pose proof (Qle_ceiling ((max_x - m) / w)) as Hr1.
  pose proof (Qceiling_lt ((m - min_x) / w)) as Hl2.
  pose proof (Qceiling_lt ((max_x - m) / w)) as Hr2.
  apply (Qmult_le_div _ _ _ Hw) in Hl1. apply (Qmult_le_div _ _ _ Hw) in Hr1.
  apply (Qmult_lt_div _ _ _ Hw) in Hl2. apply (Qmult_lt_div _ _ _ Hw) in Hr2.
  unfold Z.sub in Hl2, Hr2. rewrite inject_Z_plus in Hl2, Hr2.
  change (inject_Z (- (1))) with (- (1)) in Hl2, Hr2.
  rewrite inject_Z_plus. split; lra.
Qed.

(** ** The limits on the bin count *)

(** After a run that returns, the object holds the limits as given (or
    their defaults, 2 and half the sample size), and every recorded bin
    count lies within them and is at least 2. *)
Theorem recorded_bin_counts_within_limits (self : Binning) (data : list Q)
    (lo_arg hi_arg : option Z) (s' : Binning) (n : Z) :
  optimal_binning self data lo_arg hi_arg = (s', Return n) ->
  min_n_bin s' = Some (default_min_n_bin lo_arg)
  /\ max_n_bin s' = Some (default_max_n_bin hi_arg (Z.of_nat (length data)))
  /\ Forall (fun nb => (default_min_n_bin lo_arg <= nb
                        <= default_max_n_bin hi_arg (Z.of_nat (length data)))%Z
                       /\ (2 <= nb)%Z)
            (list_n_bin s').
Proof.
  intros H. apply run_Return_facts in H. cbn zeta in H.
  destruct H as (mx & mn & st & _ & _ & _ & _ & -> & _ & Hf & _ & _ & Hk & _).
  destruct (select_optimum_spec (self_of st)) as (_ & _ & -> & _ & -> & -> & _).
  destruct Hk as (-> & -> & _).
  destruct (resolve_limits_spec self lo_arg hi_arg (_n_x (summary data)))
    as (-> & -> & _).
  rewrite summary_n_x in *.
  split; [reflexivity|]. split; [reflexivity|].
  unfold frames_ok in Hf.
  induction Hf as [|nb d l l' (_ & _ & _ & Hlim & H2) _ IH]; constructor; auto.
Qed.

(** ** Instances of the further properties *)

Lemma bin_frequency_counts_intervals_witness :
  ((2 <= length [NINF; Fin 2; Fin 4])%nat /\ nondecreasing (tl [NINF; Fin 2; Fin 4]))
  /\ exists d,
       bin_frequency [1; 2; 3; 5] [NINF; Fin 2; Fin 4] = Return d
       /\ FREQUENCY d = [1; 2; 1]%Z.
Proof.
  assert (H2 : (2 <= length [NINF; Fin 2; Fin 4])%nat) by (cbn; lia).
  assert (Hs : nondecreasing (tl [NINF; Fin 2; Fin 4])).
  { cbn. repeat constructor. }
  split; [split; assumption|].
  destruct (bin_frequency_counts_intervals [1; 2; 3; 5] [NINF; Fin 2; Fin 4] H2 Hs)
    as (d & Hd & _).
  exists d. split; [exact Hd|].
  vm_compute in Hd. inversion Hd. reflexivity.
Defined.

Lemma recorded_frequencies_count_intervals_witness :
  optimal_binning new_Binning sample15 None None = (fst run1, Return 3%Z)
  /\ Forall (fun d => forall i, (i < n_rows d)%nat ->
                        nth i (FREQUENCY d) 0%Z = count_if (in_row d i) sample15)
            (list_bin_boundary (fst run1)).
Proof.
  assert (H : optimal_binning new_Binning sample15 None None
              = (fst run1, Return 3%Z)) by (vm_compute; reflexivity).
  split; [exact H|].
  exact (recorded_frequencies_count_intervals _ _ _ _ _ _ H).
Defined.

Lemma recorded_boundaries_aligned_witness :
  optimal_binning new_Binning sample15 None None = (fst run1, Return 3%Z)
  /\ Forall2 (fun w d =>
                0 < w
                /\ exists (m : Z) (rest : list float),
                     LOWER_CLOSE d = NINF :: rest
                     /\ forall k dflt, (k < length rest)%nat ->
                          exists q, nth k rest dflt = Fin q
                                    /\ q == w * inject_Z (m + Z.of_nat k))
             (bin_width_candidate (fst run1)) (list_bin_boundary (fst run1)).
Proof.
  assert (H : optimal_binning new_Binning sample15 None None
              = (fst run1, Return 3%Z)) by (vm_compute; reflexivity).
  split; [exact H|].
  exact (recorded_boundaries_aligned _ _ _ _ _ _ H).
Defined.

Lemma recorded_rows_consistent_witness :
  optimal_binning new_Binning sample15 None None = (fst run1, Return 3%Z)
  /\ Forall4 (fun w c nb d =>
                nb = n_bin_of (sample_mean sample15) (sample_min sample15)
                              (sample_max sample15) w
                /\ nb = Z.of_nat (n_rows d)
                /\ c = shimazaki_criterion (Z.of_nat (length sample15)) nb w
                                           (FREQUENCY d)
                /\ c <= 2 * (inject_Z (Z.of_nat (length sample15)) / inject_Z nb)
                        / w / w)
             (bin_width_candidate (fst run1)) (list_criterion (fst run1))
             (list_n_bin (fst run1)) (list_bin_boundary (fst run1)).
Proof.
  assert (H : optimal_binning new_Binning sample15 None None
              = (fst run1, Return 3%Z)) by (vm_compute; reflexivity).
  split; [exact H|].
  exact (recorded_rows_consistent _ _ _ _ _ _ H).
Defined.

Lemma recorded_widths_are_nice_witness :
  optimal_binning new_Binning sample15 None None = (fst run1, Return 3%Z)
  /\ Forall (fun w => exists (r : nat) (e : Z),
                        (r < 4)%nat /\ w == nice r * 10 ^ e)
            (bin_width_candidate (fst run1)).
Proof.
  assert (H : optimal_binning new_Binning sample15 None None
              = (fst run1, Return 3%Z)) by (vm_compute; reflexivity).
  split; [exact H|].
  exact (recorded_widths_are_nice _ _ _ _ _ _ H).
Defined.

Lemma candidates_at_most_widths_in_range_witness :
  optimal_binning new_Binning sample15 None None = (fst run1, Return 3%Z)
  /\ (0 <= 3 <= Z.of_nat (widths_in_range (search_min_exp sample15 None)
                                          (search_max_exp sample15 None)))%Z.
Proof.
  assert (H : optimal_binning new_Binning sample15 None None
              = (fst run1, Return 3%Z)) by (vm_compute; reflexivity).
  split; [exact H|].
  exact (candidates_at_most_widths_in_range _ _ _ _ _ _ H).
Defined.

Lemma optimum_accessors_after_run_witness :
  (optimal_binning new_Binning sample15 None None = (fst run1, Return 3%Z)
   /\ snd (scan_lowest (map Fin (list_criterion (fst run1))) 0 PINF None)
      = Some 0%nat)
  /\ exists w c nb d,
       optimal_position (fst run1) = Some 0%nat
       /\ optimal_criterion (fst run1) = Fin c
       /\ get_optimal_width (fst run1) = Return (Some w)
       /\ get_optimal_nbin (fst run1) = Return nb
       /\ get_optimal_boundary (fst run1) = Return (Some d)
       /\ Zsum (FREQUENCY d) = 15%Z.
Proof.
  assert (H : optimal_binning new_Binning sample15 None None
              = (fst run1, Return 3%Z)) by (vm_compute; reflexivity).
  assert (Hn : snd (scan_lowest (map Fin (list_criterion (fst run1)))
                                0 PINF None) = Some 0%nat)
    by (vm_compute; reflexivity).
  split; [split; assumption|].
  destruct (optimum_accessors_after_run _ _ _ _ _ _ _ H Hn)
    as (w & c & nb & d & Hp & Hc & _ & Hw & Hnb & Hd & _ & _ & _ & Hsum & _).
  exists w, c, nb, d. auto 10.
Defined.

Lemma accessors_after_empty_run_witness :
  optimal_binning (fst run1) sample15 (Some 10%Z) (Some 2%Z)
  = (fst run2, Return 0%Z)
  /\ match optimal_position (fst run1) with
     | None =>
         get_optimal_boundary (fst run2) = Return None
         /\ get_optimal_nbin (fst run2) = Return 0%Z
         /\ get_optimal_width (fst run2) = Return None
     | Some _ =>
         get_optimal_boundary (fst run2) = Raise IndexError
         /\ get_optimal_nbin (fst run2) = Raise IndexError
         /\ get_optimal_width (fst run2) = Raise IndexError
     end.
Proof.
  assert (H : optimal_binning (fst run1) sample15 (Some 10%Z) (Some 2%Z)
              = (fst run2, Return 0%Z)) by (vm_compute; reflexivity).
  split; [exact H|].
  exact (accessors_after_empty_run _ _ _ _ _ H).
Defined.

Lemma binning_criterion_after_run_witness :
  optimal_binning new_Binning sample15 None None = (fst run1, Return 3%Z)
  /\ exists rows,
       get_binning_criterion (fst run1) = Return rows
       /\ map N_BIN rows = list_n_bin (fst run1)
       /\ Z.of_nat (length rows) = 3%Z.
Proof.
  assert (H : optimal_binning new_Binning sample15 None None
              = (fst run1, Return 3%Z)) by (vm_compute; reflexivity).
  split; [exact H|].
  destruct (binning_criterion_after_run _ _ _ _ _ _ H)
    as (rows & Hr & _ & _ & Hn & Hlen & _).
  exists rows. auto.
Defined.

Lemma n_bin_spans_range_witness :
  0 < 1
  /\ 5 - 1 <= inject_Z (n_bin_of (49 # 15) 1 5 1) * 1
  /\ inject_Z (n_bin_of (49 # 15) 1 5 1) * 1 < 5 - 1 + 2 * 1.
Proof.
  assert (H : 0 < 1) by reflexivity.
  split; [exact H|].
  exact (n_bin_spans_range (49 # 15) 1 5 1 H).
Defined.

Lemma recorded_bin_counts_within_limits_witness :
  optimal_binning new_Binning sample15 None None = (fst run1, Return 3%Z)
  /\ min_n_bin (fst run1) = Some 2%Z
  /\ max_n_bin (fst run1) = Some 7%Z
  /\ Forall (fun nb => (2 <= nb <= 7)%Z /\ (2 <= nb)%Z) (list_n_bin (fst run1)).
Proof.
  assert (H : optimal_binning new_Binning sample15 None None
              = (fst run1, Return 3%Z)) by (vm_compute; reflexivity).
  split; [exact H|].
  exact (recorded_bin_counts_within_limits _ _ _ _ _ _ H).
Defined.

Lemma recorded_frames_sum_witness :
  optimal_binning new_Binning sample15 None None = (fst run1, Return 3%Z)
  /\ Forall (fun d => Zsum (FREQUENCY d) = 15%Z) (list_bin_boundary (fst run1)).
Proof.
  assert (H : optimal_binning new_Binning sample15 None None
              = (fst run1, Return 3%Z)) by (vm_compute; reflexivity).
  split; [exact H|].
  exact (recorded_frames_sum _ _ _ _ _ _ H).
Defined.

Lemma rows_agree_preserved_witness :
  rows_agree new_Binning
  /\ rows_agree (fst (optimal_binning new_Binning sample15 None None)).
Proof.
  assert (H : rows_agree new_Binning) by constructor.
  split; [exact H|].
  exact (rows_agree_preserved new_Binning sample15 None None H).
Defined.

Lemma reversed_limits_no_candidate_witness :
  ((2 < 10)%Z
   /\ optimal_binning new_Binning sample15 (Some 10%Z) (Some 2%Z)
      = (fst (optimal_binning new_Binning sample15 (Some 10%Z) (Some 2%Z)),
         Return 0%Z))
  /\ 0%Z = 0%Z
  /\ list_n_bin (fst (optimal_binning new_Binning sample15 (Some 10%Z) (Some 2%Z)))
     = []
  /\ min_n_bin (fst (optimal_binning new_Binning sample15 (Some 10%Z) (Some 2%Z)))
     = Some 10%Z
  /\ max_n_bin (fst (optimal_binning new_Binning sample15 (Some 10%Z) (Some 2%Z)))
     = Some 2%Z.
Proof.
  assert (Hlt : (2 < 10)%Z) by lia.
  assert (H : optimal_binning new_Binning sample15 (Some 10%Z) (Some 2%Z)
              = (fst (optimal_binning new_Binning sample15 (Some 10%Z) (Some 2%Z)),
                 Return 0%Z)) by (vm_compute; reflexivity).
  split; [split; assumption|].
  exact (reversed_limits_no_candidate _ _ _ _ _ _ Hlt H).
Defined.

(** ** More on [bin_frequency] *)

Lemma incr_at_nonneg (i : nat) (freq : list Z) :
  Forall (fun f => (0 <= f)%Z) freq -> Forall (fun f => (0 <= f)%Z) (incr_at i freq).
Proof.
  intros H. revert i. induction H as [|f fs Hf Hfs IH]; intros [|i]; cbn;
    try constructor; auto; lia.
Qed.

Lemma count_all_nonneg (b : list float) (data : list Q) (freq : list Z) :
  Forall (fun f => (0 <= f)%Z) freq ->
  Forall (fun f => (0 <= f)%Z) (fold_left (count_value b) data freq).
Proof.
  revert freq; induction data as [|u data IH]; intros freq H; cbn; [assumption|].
  apply IH. rewrite count_value_bin_of. apply incr_at_nonneg. assumption.
Qed.

(** With two boundaries or more, whatever their order, [bin_frequency]
    returns a frame with one row per boundary whose frequencies are not
    negative and add up to the sample size: every value is counted once. *)
Theorem bin_frequency_partitions_sample (data : list Q) (b : list float) :
  (2 <= length b)%nat ->
  exists d,
    bin_frequency data b = Return d
    /\ n_rows d = length b
    /\ well_formed d
    /\ Forall (fun f => (0 <= f)%Z) (FREQUENCY d)
    /\ Zsum (FREQUENCY d) = Z.of_nat (length data).
Proof.
  intros Hn.
  destruct (bin_frequency_sum data b Hn) as (d & Hd & Hl & Hwf & Hsum).
  exists d. split; [assumption|]. split; [unfold n_rows; rewrite Hl; reflexivity|].
  split; [assumption|]. split; [|assumption].
  apply bin_frequency_Return_eq in Hd. destruct Hd as [_ ->].
  cbn [FREQUENCY]. apply count_all_nonneg.
  clear. induction (length b); cbn; constructor; auto; lia.
Qed.

Lemma bin_frequency_partitions_sample_witness :
  (2 <= length [NINF; Fin 4; Fin 2])%nat
  /\ exists d,
       bin_frequency [1; 2; 3; 5] [NINF; Fin 4; Fin 2] = Return d
       /\ Zsum (FREQUENCY d) = 4%Z.
Proof.
  assert (H : (2 <= length [NINF; Fin 4; Fin 2])%nat) by (cbn; lia).
  split; [exact H|].
  destruct (bin_frequency_partitions_sample [1; 2; 3; 5] [NINF; Fin 4; Fin 2] H)
    as (d & Hd & _ & _ & _ & Hsum).
  exists d. split; assumption.
Defined.

(** ** The table can always be built *)

(** The three lists of the table have one length. *)
Lemma binning_criterion_Return_iff (self : Binning) :
  (exists rows, get_binning_criterion self = Return rows)
  <-> length (bin_width_candidate self) = length (list_criterion self)
      /\ length (list_n_bin self) = length (list_criterion self).
Proof.
  unfold get_binning_criterion.
  destruct (Nat.eqb_spec (length (bin_width_candidate self))
                         (length (list_criterion self))) as [E1|E1];
    destruct (Nat.eqb_spec (length (list_criterion self))
                           (length (list_n_bin self))) as [E2|E2]; cbn [andb];
    split; try (intros [rows H]; discriminate H);
    try (intros [H1 H2]; congruence).
  - intros _. auto.
  - intros _. eexists. reflexivity.
Qed.

(** [get_binning_criterion] returns a table on a fresh object, and keeps
    doing so after every call of [optimal_binning], whether the call
    returned or raised. *)
Theorem binning_criterion_always_returns (self : Binning) (data : list Q)
    (lo_arg hi_arg : option Z) :
  (exists rows, get_binning_criterion self = Return rows) ->
  exists rows,
    get_binning_criterion (fst (optimal_binning self data lo_arg hi_arg))
    = Return rows.
Proof.
  rewrite !binning_criterion_Return_iff. intros Hself.
  destruct data as [|u data]; [exact Hself|].
  rewrite optimal_binning_on_sample by discriminate.
  set (dt := u :: data).
  assert (H1 : length (bin_width_candidate
                         (resolve_limits self lo_arg hi_arg (_n_x (summary dt))))
               = length (list_criterion
                           (resolve_limits self lo_arg hi_arg (_n_x (summary dt))))
               /\ length (list_n_bin
                            (resolve_limits self lo_arg hi_arg (_n_x (summary dt))))
                  = length (list_criterion
                              (resolve_limits self lo_arg hi_arg
                                 (_n_x (summary dt))))).
  { destruct (resolve_limits_spec self lo_arg hi_arg (_n_x (summary dt)))
      as (_ & _ & -> & -> & -> & _).
    exact Hself. }
  unfold binning_of_range.
  destruct (Qltb 0 (sample_max dt - sample_min dt)); [|exact H1].
  destruct (max_n_bin _) as [hi|]; [|exact H1].
  destruct (min_n_bin _) as [lo|]; [|exact H1].
  destruct (log10_quotient_check _ hi); [exact H1|].
  destruct (log10_quotient_check _ lo); [exact H1|].
  destruct (sweep_of_range _ _ _ _ _ _ _ _) as [st pending] eqn:Es.
  assert (Hst : lengths_ok st).
  { unfold sweep_of_range in Es.
    pose proof (f_equal fst Es) as E. cbn [fst] in E. rewrite <- E.
    apply sweep_lengths_ok. }
  destruct Hst as (Hw & Hn & _).
  destruct pending as [e|]; cbn [fst]; [auto|].
  destruct (select_optimum_spec (self_of st)) as (-> & -> & -> & _). auto.
Qed.

Lemma binning_criterion_always_returns_witness :
  (exists rows, get_binning_criterion new_Binning = Return rows)
  /\ exists rows,
       get_binning_criterion (fst (optimal_binning new_Binning sample15 None None))
       = Return rows.
Proof.
  assert (H : exists rows, get_binning_criterion new_Binning = Return rows)
    by (exists []; reflexivity).
  split; [exact H|].
  exact (binning_criterion_always_returns new_Binning sample15 None None H).
Defined.

(** ** The search range and the centre of the bins *)

(** For a positive range and positive limits, the smallest width tried is
    the largest power of ten not above [range / max_n_bin], and the
    largest width tried is the smallest power of ten not below
    [range / min_n_bin]; so with [min_n_bin <= max_n_bin] the loop tries
    at least one width. *)
Theorem search_range_brackets (range_x : Q) (lo hi : Z) :
  0 < range_x -> (0 < lo)%Z -> (0 < hi)%Z ->
  (min_bin_width_of range_x hi <= range_x / inject_Z hi
   /\ range_x / inject_Z hi < 10 * min_bin_width_of range_x hi)
  /\ (range_x / inject_Z lo <= max_bin_width_of range_x lo
      /\ max_bin_width_of range_x lo < 10 * (range_x / inject_Z lo))
  /\ ((lo <= hi)%Z -> min_bin_width_of range_x hi <= max_bin_width_of range_x lo).
Proof.
  intros Hr Hlo Hhi.
  assert (Qlo : 0 < inject_Z lo)
    by (change 0 with (inject_Z 0); rewrite <- Zlt_Qlt; exact Hlo).
  assert (Qhi : 0 < inject_Z hi)
    by (change 0 with (inject_Z 0); rewrite <- Zlt_Qlt; exact Hhi).
  assert (Hqh : 0 < range_x / inject_Z hi)
    by (apply Qlt_shift_div_l; [assumption|lra]).
  assert (Hql : 0 < range_x / inject_Z lo)
    by (apply Qlt_shift_div_l; [assumption|lra]).
  destruct (floor_log10_spec _ Hqh) as [F1 F2].
  destruct (ceil_log10_spec _ Hql) as [C1 C2].
  unfold min_bin_width_of, max_bin_width_of.
  assert (E10 : forall k, 10 ^ (k + 1) == 10 * 10 ^ k).
  { intros k. rewrite Qpower_plus by (intros E; discriminate E). ring. }
  split; [|split].
  - split; [assumption|]. rewrite <- E10. assumption.
  - split; [assumption|].
    assert (E : 10 ^ ceil_log10 (range_x / inject_Z lo)
                == 10 * 10 ^ (ceil_log10 (range_x / inject_Z lo) - 1)).
    { rewrite <- E10.
      replace (ceil_log10 (range_x / inject_Z lo) - 1 + 1)%Z
        with (ceil_log10 (range_x / inject_Z lo)) by lia. reflexivity. }
    rewrite E. lra.
  - intros Hle.
    assert (Hq : range_x / inject_Z hi <= range_x / inject_Z lo).
    { apply Qle_shift_div_l; [assumption|].
      unfold Qdiv. rewrite <- Qmult_assoc, (Qmult_comm (/ inject_Z hi)).
      rewrite Qmult_assoc.
      apply Qle_shift_div_r; [assumption|].
      apply Qmult_le_l; [assumption|]. rewrite <- Zle_Qle. assumption. }
    lra.
Qed.

Lemma search_range_brackets_witness :
  (0 < 4 /\ (0 < 2)%Z /\ (0 < 7)%Z)
  /\ min_bin_width_of 4 7 <= max_bin_width_of 4 2.
Proof.
  assert (Hr : 0 < 4) by reflexivity.
  assert (Hlo : (0 < 2)%Z) by lia.
  assert (Hhi : (0 < 7)%Z) by lia.
  split; [repeat split; assumption|].
  destruct (search_range_brackets 4 2 7 Hr Hlo Hhi) as (_ & _ & H).
  apply H. lia.
Defined.

(** On a positive width, the centre from which the boundaries are laid out
    (line 164) is an integer multiple of the width and is at most half a
    width away from the mean. *)
Theorem middle_near_mean (mean_x w : Q) :
  0 < w ->
  middle_of mean_x w == w * inject_Z (numpy_round (mean_x / w))
  /\ middle_of mean_x w - w / 2 <= mean_x
  /\ mean_x <= middle_of mean_x w + w / 2.
Proof.
  intros Hw. unfold middle_of. split; [reflexivity|].
  destruct (numpy_round_spec (mean_x / w)) as [H1 H2].
  set (r := inject_Z (numpy_round (mean_x / w))) in *.
  assert (E : mean_x == mean_x / w * w) by (field; lra).
  assert (A1 : (r - (1 # 2)) * w <= mean_x / w * w)
    by (apply Qmult_le_r; assumption).
  assert (A2 : mean_x / w * w <= (r + (1 # 2)) * w)
    by (apply Qmult_le_r; assumption).
  rewrite <- E in A1, A2.
  split.
  - setoid_replace (w * r - w / 2) with ((r - (1 # 2)) * w) by field. assumption.
  - setoid_replace (w * r + w / 2) with ((r + (1 # 2)) * w) by field. assumption.
Qed.

Lemma middle_near_mean_witness :
  0 < 2
  /\ middle_of (49 # 15) 2 - 2 / 2 <= 49 # 15
  /\ 49 # 15 <= middle_of (49 # 15) 2 + 2 / 2.
Proof.
  assert (H : 0 < 2) by reflexivity.
  split; [exact H|].
  destruct (middle_near_mean (49 # 15) 2 H) as (_ & H1 & H2).
  split; assumption.
Defined.
